(** * Spidermon: the Scrapy stat monitors and the monitor engine they run on

    A shallow embedding of [spidermon/contrib/scrapy/monitors.py] and of the
    monitors of [examples/monitors.py], with the properties the
    specification states about them.

    Layout:
    - [Py]       the Python values, exceptions and arithmetic the monitors use
                 (integers as [Z], floats as IEEE binary64 through
                 [SpecFloat], exceptions as an error monad);
    - [Scrapy]   the typed getters of the crawler settings;
    - [Unittest] the assertion methods and the outcome of a test method;
    - [Monitors] the monitor classes of the source file;
    - [Engine]   the rule/action engine (result tree, triggers, suites);
    - [Examples] the monitors of the examples file;
    - the theorems. *)

From Stdlib Require Import ZArith Bool List Lia Ascii String.
From Stdlib Require Import Floats.SpecFloat.
From Stdlib Require DecimalString OrderedTypeEx.
From Stdlib Require Import Sorting.Sorted.
From stdpp Require Import gmap strings list.

Set Warnings "-register-all".
Local Open Scope Z_scope.

(* ===================================================================== *)
(** * Python values, exceptions and arithmetic                            *)
(* ===================================================================== *)

Module Py.

(** ** Values *)

(** Floats are IEEE 754 binary64, as a [spec_float]. *)
Definition prec : Z := 53.
Definition emax : Z := 1024.
Definition float := spec_float.

(** The objects found in job stats and crawler settings. *)
Inductive value :=
  | VNone
  | VBool (b : bool)
  | VInt (n : Z)
  | VFloat (x : float)
  | VStr (s : string)
  | VList (l : list string).

(** A message built by [str.format] or an f-string: the template, with [{}]
    for each substituted value, and the values. *)
Record message := Format { template : string; args : list value }.

Definition Text (s : string) : message := Format s [].

(** ** Exceptions *)

(** Exceptions, by class.  Those that carry a message are the ones the
    monitors raise themselves; the others come from Python's operators. *)
Inductive exn :=
  | AssertionError (msg : message)
  | SkipTest (msg : message)
  | NotConfigured (msg : message)
  | Exception (msg : message)
  | KeyNotFound (key : string)
  | ZeroDivisionError
  | OverflowError
  | ValueError
  | TypeError
  | AttributeError.

(** A computation that returns or raises. *)
Inductive result (A : Type) :=
  | Ok (a : A)
  | Raise (e : exn).
Arguments Ok {A} a.
Arguments Raise {A} e.

Definition bind {A B} (k : A -> result B) (r : result A) : result B :=
  match r with
  | Ok a => k a
  | Raise e => Raise e
  end.

Definition map_result {A B} (f : A -> B) (r : result A) : result B :=
  bind (fun a => Ok (f a)) r.

#[global] Instance result_ret : MRet result := @Ok.
#[global] Instance result_fmap : FMap result := @map_result.
#[global] Instance result_bind : MBind result := @bind.

(** A method with a loop that need not end: done with a result, or still
    looping when the iterations granted to it are spent. *)
Inductive partial (A : Type) :=
  | Done (r : result A)
  | Diverge.
Arguments Done {A} r.
Arguments Diverge {A}.

Definition bind_partial {A B} (k : A -> partial B) (p : partial A) : partial B :=
  match p with
  | Done (Ok a) => k a
  | Done (Raise e) => Done (Raise e)
  | Diverge => Diverge
  end.

#[global] Instance partial_bind : MBind partial := @bind_partial.

(** ** Float arithmetic, round to nearest even *)

Definition float_mul : float -> float -> float := SFmul prec emax.

(** [float(n)] for an integer: the nearest double, OverflowError when the
    integer is too large. *)
Definition float_of_int (n : Z) : result float :=
  match binary_normalize prec emax n 0 false with
  | S754_infinity _ => Raise OverflowError
  | f => Ok f
  end.

Definition int_sign (n : Z) : bool := n <? 0.

(** [a / b] on integers: the correctly rounded quotient, whatever the size
    of [a] and [b]. *)
Definition int_truediv (a b : Z) : result float :=
  match a, b with
  | _, Z0 => Raise ZeroDivisionError
  | Z0, _ => Ok (S754_zero (int_sign b))
  | _, _ =>
      match SFdiv prec emax (S754_finite (int_sign a) (Z.to_pos (Z.abs a)) 0)
                            (S754_finite (int_sign b) (Z.to_pos (Z.abs b)) 0) with
      | S754_infinity _ => Raise OverflowError
      | f => Ok f
      end
  end.

(** The integer [m * 2^e] rounded up / towards zero. *)
Definition scaled_ceil (m e : Z) : Z :=
  if 0 <=? e then m * 2 ^ e else - ((- m) / 2 ^ (- e)).
Definition scaled_trunc (m e : Z) : Z :=
  if 0 <=? e then m * 2 ^ e else Z.quot m (2 ^ (- e)).

Definition signed (s : bool) (m : positive) : Z :=
  if s then Z.neg m else Z.pos m.

(** [math.ceil(x)] *)
Definition math_ceil (x : float) : result Z :=
  match x with
  | S754_nan => Raise ValueError
  | S754_infinity _ => Raise OverflowError
  | S754_zero _ => Ok 0
  | S754_finite s m e => Ok (scaled_ceil (signed s m) e)
  end.

(** [int(x)] for a float *)
Definition int_of_float (x : float) : result Z :=
  match x with
  | S754_nan => Raise ValueError
  | S754_infinity _ => Raise OverflowError
  | S754_zero _ => Ok 0
  | S754_finite s m e => Ok (scaled_trunc (signed s m) e)
  end.

(** Comparison of an integer with a float is exact in Python: no
    conversion of the integer. *)
Definition int_float_compare (n : Z) (x : float) : option comparison :=
  match x with
  | S754_nan => None
  | S754_infinity s => Some (if s then Gt else Lt)
  | S754_zero _ => Some (n ?= 0)
  | S754_finite s m e =>
      Some (if 0 <=? e then n ?= signed s m * 2 ^ e
            else n * 2 ^ (- e) ?= signed s m)
  end.

(** ** The numeric tower and the comparison operators *)

Inductive number :=
  | NInt (n : Z)
  | NFloat (x : float).

(** [bool] is a subclass of [int]. *)
Definition as_number (v : value) : option number :=
  match v with
  | VBool b => Some (NInt (Z.b2z b))
  | VInt n => Some (NInt n)
  | VFloat x => Some (NFloat x)
  | _ => None
  end.

(** [None] when one side is a NaN. *)
Definition number_compare (a b : number) : option comparison :=
  match a, b with
  | NInt n, NInt m => Some (n ?= m)
  | NInt n, NFloat y => int_float_compare n y
  | NFloat x, NInt m => CompOpp <$> int_float_compare m x
  | NFloat x, NFloat y => SFcompare x y
  end.

Fixpoint list_compare (l k : list string) : comparison :=
  match l, k with
  | [], [] => Eq
  | [], _ :: _ => Lt
  | _ :: _, [] => Gt
  | s :: l', t :: k' =>
      match String.compare s t with
      | Eq => list_compare l' k'
      | c => c
      end
  end.

(** The ordering behind [<], [<=], [>], [>=]: numbers with numbers, strings
    with strings, lists with lists; anything else is a TypeError. *)
Definition order (a b : value) : result (option comparison) :=
  match as_number a, as_number b with
  | Some x, Some y => Ok (number_compare x y)
  | _, _ =>
      match a, b with
      | VStr s, VStr t => Ok (Some (String.compare s t))
      | VList l, VList k => Ok (Some (list_compare l k))
      | _, _ => Raise TypeError
      end
  end.

(** [a == b] never raises. *)
Definition equal (a b : value) : bool :=
  match as_number a, as_number b with
  | Some x, Some y =>
      match number_compare x y with Some Eq => true | _ => false end
  | _, _ =>
      match a, b with
      | VNone, VNone => true
      | VStr s, VStr t => String.eqb s t
      | VList l, VList k => bool_decide (l = k)
      | _, _ => false
      end
  end.

Inductive cmpop := OpGt | OpGe | OpLt | OpLe | OpEq | OpNe.

Definition compare_op (op : cmpop) (a b : value) : result bool :=
  match op with
  | OpGt => c ← order a b; Ok (match c with Some Gt => true | _ => false end)
  | OpGe => c ← order a b; Ok (match c with Some (Gt | Eq) => true | _ => false end)
  | OpLt => c ← order a b; Ok (match c with Some Lt => true | _ => false end)
  | OpLe => c ← order a b; Ok (match c with Some (Lt | Eq) => true | _ => false end)
  | OpEq => Ok (equal a b)
  | OpNe => Ok (negb (equal a b))
  end.

(** Truth value of an object, as [if x:] and [not x] take it. *)
Definition truthy (v : value) : bool :=
  match v with
  | VNone => false
  | VBool b => b
  | VInt n => negb (n =? 0)
  | VFloat x => match x with S754_zero _ => false | _ => true end
  | VStr s => negb (String.eqb s "")
  | VList l => match l with [] => false | _ => true end
  end.

(** ** Conversions *)

(** Parsing a string as a number is Python's own ([int(s)], [float(s)]);
    [None] stands for its ValueError. *)
Class StrConversions := {
  int_of_str : string -> option Z;
  float_of_str : string -> option float;
}.

Section Conversions.
Context `{StrConversions}.

(** [int(v)] *)
Definition int (v : value) : result Z :=
  match v with
  | VBool b => Ok (Z.b2z b)
  | VInt n => Ok n
  | VFloat x => int_of_float x
  | VStr s => match int_of_str s with Some n => Ok n | None => Raise ValueError end
  | VNone | VList _ => Raise TypeError
  end.

(** [float(v)] *)
Definition float_ (v : value) : result float :=
  match v with
  | VBool b => float_of_int (Z.b2z b)
  | VInt n => float_of_int n
  | VFloat x => Ok x
  | VStr s => match float_of_str s with Some x => Ok x | None => Raise ValueError end
  | VNone | VList _ => Raise TypeError
  end.
End Conversions.

(** [sum(l)] on integers *)
Definition sum (l : list Z) : Z := foldl Z.add 0 l.

(** [d.get(key, default)] *)
Definition dict_get {A} (d : gmap string A) (key : string) (default : A) : A :=
  match d !! key with
  | Some v => v
  | None => default
  end.

End Py.

(* ===================================================================== *)
(** * Scrapy's settings object                                            *)
(* ===================================================================== *)

Module Scrapy.
Import Py.

(** [str.split(sep)] for a one-character separator. *)
Fixpoint split (sep : ascii) (s : string) : list string :=
  match s with
  | EmptyString => [EmptyString]
  | String c s' =>
      if Ascii.eqb c sep then EmptyString :: split sep s'
      else match split sep s' with
           | [] => [String c EmptyString]
           | w :: ws => String c w :: ws
           end
  end.

Section Settings.
Context `{StrConversions}.

(** [settings.attributes], priorities left out. *)
Variable attributes : gmap string value.

(** [settings[name]]: [None] for a name that is not set. *)
Definition getitem (name : string) : value :=
  dict_get attributes name VNone.

(** [settings.get(name, default)] *)
Definition get (name : string) (default : value) : value :=
  match getitem name with
  | VNone => default
  | v => v
  end.

Definition getint (name : string) (default : Z) : result Z :=
  int (get name (VInt default)).

Definition getfloat (name : string) (default : float) : result float :=
  float_ (get name (VFloat default)).

(** [bool(int(got))], and the spellings of True and False when [int]
    raises ValueError. *)
Definition getbool (name : string) (default : bool) : result bool :=
  let got := get name (VBool default) in
  match int got with
  | Ok n => Ok (negb (n =? 0))
  | Raise ValueError =>
      if equal got (VStr "True") || equal got (VStr "true") then Ok true
      else if equal got (VStr "False") || equal got (VStr "false") then Ok false
      else Raise ValueError
  | Raise e => Raise e
  end.

Definition getlist (name : string) (default : list string) : result (list string) :=
  match get name (VList default) with
  | VStr s => Ok (split "," s)
  | VList l => Ok l
  | _ => Raise TypeError
  end.
End Settings.

End Scrapy.

(* ===================================================================== *)
(** * unittest: assertions and the outcome of a test method               *)
(* ===================================================================== *)

Module Unittest.
Import Py.

Definition fail (msg : message) : result unit := Raise (AssertionError msg).
Definition skipTest (reason : message) : result unit := Raise (SkipTest reason).

Definition assertTrue (expr : bool) (msg : message) : result unit :=
  if expr then Ok () else fail msg.

(** [assertGreater] and the like: [if not first OP second: fail(msg)]. *)
Definition assertCompare (op : cmpop) (first second : value) (msg : message)
  : result unit :=
  holds ← compare_op op first second;
  if holds : bool then Ok () else fail msg.

Definition assertGreater := assertCompare OpGt.
Definition assertGreaterEqual := assertCompare OpGe.
Definition assertLess := assertCompare OpLt.
Definition assertLessEqual := assertCompare OpLe.
Definition assertEqual := assertCompare OpEq.
Definition assertNotEqual := assertCompare OpNe.

(** What the test result records for one test method. *)
Inductive outcome :=
  | Passed
  | Failed (msg : message)
  | Errored (e : exn)
  | Skipped (reason : message).

Definition run_test (test : result unit) : outcome :=
  match test with
  | Ok _ => Passed
  | Raise (AssertionError msg) => Failed msg
  | Raise (SkipTest reason) => Skipped reason
  | Raise e => Errored e
  end.

End Unittest.

(* ===================================================================== *)
(** * The monitors of spidermon/contrib/scrapy/monitors.py                *)
(* ===================================================================== *)

Module Monitors.
Import Py Scrapy Unittest.

Definition SPIDERMON_MAX_RETRIES : string := "SPIDERMON_MAX_RETRIES".
Definition SPIDERMON_MIN_SUCCESSFUL_REQUESTS : string := "SPIDERMON_MIN_SUCCESSFUL_REQUESTS".
Definition SPIDERMON_MAX_REQUESTS_ALLOWED : string := "SPIDERMON_MAX_REQUESTS_ALLOWED".
Definition SPIDERMON_JOBS_COMPARISON : string := "SPIDERMON_JOBS_COMPARISON".
Definition SPIDERMON_JOBS_COMPARISON_STATES : string := "SPIDERMON_JOBS_COMPARISON_STATES".
Definition SPIDERMON_JOBS_COMPARISON_TAGS : string := "SPIDERMON_JOBS_COMPARISON_TAGS".
Definition SPIDERMON_JOBS_COMPARISON_THRESHOLD : string := "SPIDERMON_JOBS_COMPARISON_THRESHOLD".

(** What a monitor instance reads: [self.crawler.settings.attributes] and
    [self.stats]. *)
Record MonitorData := {
  crawler_settings : gmap string value;
  stats : gmap string value;
}.

(** ** BaseStatMonitor *)

Inductive datatype := DInt | DFloat.

(** The class attributes of a [BaseStatMonitor] subclass.  The two optional
    ones are the ones [run] tests with [hasattr]. *)
Record StatMonitorClass := {
  class_name : string;
  monitor_name : string;
  stat_name : string;
  assert_type : string;
  threshold_setting : option string;
  get_threshold : option (MonitorData -> partial value);
  fail_if_stat_missing : bool;
  threshold_datatype : datatype;
}.

Module BaseStatMonitor.
Section Methods.
Context `{StrConversions}.
Variable cls : StatMonitorClass.
Variable self : MonitorData.

Definition _get_threshold_setting : string -> result value :=
  match threshold_datatype cls with
  | DInt => fun name => VInt <$> getint (crawler_settings self) name 0
  | DFloat => fun name => VFloat <$> getfloat (crawler_settings self) name (S754_zero false)
  end.

(** [run(self, result)]; [super_run] is [super().run(result)]. *)
Definition run {R} (super_run : result R) : result R :=
  let has_threshold_config :=
    bool_decide (is_Some (threshold_setting cls))
    || bool_decide (is_Some (get_threshold cls)) in
  if negb has_threshold_config then
    Raise (NotConfigured (Format
      "{} should include a a `threshold_setting` attribute to be configured in your project settings with the desired threshold or a `get_threshold` method that returns the desired threshold."
      [VStr (class_name cls)]))
  else
    match threshold_setting cls with
    | Some name =>
        if bool_decide (crawler_settings self !! name = None) then
          Raise (NotConfigured (Format
            "Configure {} to your project settings to use {}."
            [VStr name; VStr (monitor_name cls)]))
        else super_run
    | None => super_run
    end.

Definition _get_threshold_value : partial value :=
  match get_threshold cls with
  | Some method => method self
  | None =>
      Done match threshold_setting cls with
           | Some name => _get_threshold_setting name
           | None => Raise AttributeError
           end
  end.

Definition assertions : gmap string (value -> value -> message -> result unit) :=
  list_to_map [
    (">", assertGreater);
    (">=", assertGreaterEqual);
    ("<", assertLess);
    ("<=", assertLessEqual);
    ("==", assertEqual);
    ("!=", assertNotEqual)
  ].

Definition test_stat_monitor : partial unit :=
  threshold ← _get_threshold_value;
  Done (
  (if bool_decide (stats self !! stat_name cls = None) then
     let message := Format "Unable to find '{}' in job stats." [VStr (stat_name cls)] in
     if fail_if_stat_missing cls then fail message else skipTest message
   else Ok ());;
  let value := dict_get (stats self) (stat_name cls) VNone in
  match assertions !! assert_type cls with
  | Some assertion_method =>
      assertion_method value threshold
        (Format "Expecting '{}' to be '{}' to '{}'. Current value: '{}'"
           [VStr (stat_name cls); VStr (assert_type cls); threshold; value])
  | None => Raise TypeError
  end).
End Methods.
End BaseStatMonitor.

(** The subclasses that only set class attributes. *)
Definition stat_monitor (class_name monitor_name stat_name threshold_setting
                         assert_type : string) (fail_if_stat_missing : bool)
  : StatMonitorClass :=
  {| class_name := class_name; monitor_name := monitor_name;
     stat_name := stat_name; assert_type := assert_type;
     threshold_setting := Some threshold_setting; get_threshold := None;
     fail_if_stat_missing := fail_if_stat_missing;
     threshold_datatype := DFloat |}.

Definition ItemCountMonitor : StatMonitorClass :=
  stat_monitor "ItemCountMonitor" "Extracted Items Monitor"
    "item_scraped_count" "SPIDERMON_MIN_ITEMS" ">=" true.
Definition CriticalCountMonitor : StatMonitorClass :=
  stat_monitor "CriticalCountMonitor" "Critical Count Monitor"
    "log_count/CRITICAL" "SPIDERMON_MAX_CRITICALS" "<=" false.
Definition ErrorCountMonitor : StatMonitorClass :=
  stat_monitor "ErrorCountMonitor" "Error Count Monitor"
    "log_count/ERROR" "SPIDERMON_MAX_ERRORS" "<=" false.
Definition WarningCountMonitor : StatMonitorClass :=
  stat_monitor "WarningCountMonitor" "Warning Count Monitor"
    "log_count/WARNING" "SPIDERMON_MAX_WARNINGS" "<=" false.
Definition DownloaderExceptionMonitor : StatMonitorClass :=
  stat_monitor "DownloaderExceptionMonitor" "Downloader Exceptions monitor"
    "downloader/exception_count" "SPIDERMON_MAX_DOWNLOADER_EXCEPTIONS" "<=" false.
Definition ItemValidationMonitor : StatMonitorClass :=
  stat_monitor "ItemValidationMonitor" "Item Validation Monitor"
    "spidermon/validation/fields/errors" "SPIDERMON_MAX_ITEM_VALIDATION_ERRORS"
    "<=" false.

(** ** RetryCountMonitor *)

Module RetryCountMonitor.
Section Methods.
Context `{StrConversions}.
Variable self : MonitorData.

Definition test_maximum_retries : result unit :=
  let max_reached := dict_get (stats self) "retry/max_reached" (VInt 0) in
  threshold ← getint (crawler_settings self) SPIDERMON_MAX_RETRIES (-1);
  if threshold <? 0 then Ok ()
  else
    let msg := Format "Too many requests ({}) reached the maximum retry amount"
                 [max_reached] in
    assertLessEqual max_reached (VInt threshold) msg.
End Methods.
End RetryCountMonitor.

(** ** SuccessfulRequestsMonitor *)

Module SuccessfulRequestsMonitor.
Section Methods.
Context `{StrConversions}.
Variable self : MonitorData.

Definition test_minimum_successful_requests : result unit :=
  let requests := dict_get (stats self) "downloader/response_status_count/200" (VInt 0) in
  threshold ← getint (crawler_settings self) SPIDERMON_MIN_SUCCESSFUL_REQUESTS 0;
  let msg := Format "Too few ({}) successful requests" [requests] in
  assertGreaterEqual requests (VInt threshold) msg.
End Methods.
End SuccessfulRequestsMonitor.

(** ** TotalRequestsMonitor *)

Module TotalRequestsMonitor.
Section Methods.
Context `{StrConversions}.
Variable self : MonitorData.

Definition test_request_count_exceeded_limit : result unit :=
  let requests := dict_get (stats self) "downloader/request_count" (VInt 0) in
  threshold ← getint (crawler_settings self) SPIDERMON_MAX_REQUESTS_ALLOWED (-1);
  if threshold <? 0 then Ok ()
  else
    let msg := Format "Too many ({}) requests" [requests] in
    assertLessEqual requests (VInt threshold) msg.
End Methods.
End TotalRequestsMonitor.

(** ** FieldCoverageMonitor *)

Module FieldCoverageMonitor.
Section Methods.
Context `{StrConversions}.
Variable self : MonitorData.

Definition run {R} (super_run : result R) : result R :=
  add_field_coverage_set ←
    getbool (crawler_settings self) "SPIDERMON_ADD_FIELD_COVERAGE" false;
  if negb add_field_coverage_set then
    Raise (NotConfigured (Text
      "To enable field coverage monitor, set SPIDERMON_ADD_FIELD_COVERAGE=True in your project settings"))
  else super_run.
End Methods.
End FieldCoverageMonitor.

(** ** ZyteJobsComparisonMonitor *)

(** A job summary of the job-listing service: its numeric fields, of which
    the monitor reads the item count ["items"]. *)
Abbreviation job := (gmap string Z).

(** The keyword arguments of [zyte.client.spider.jobs.list]; [filters] is
    [dict(has_tag=tags)] or [None]. *)
Record list_request := {
  start : Z;
  state : list string;
  count : Z;
  filters : option (list string);
}.

(** The external service. *)
Record ZyteClient := {
  jobs_list : list_request -> list job;
}.

(** [sorted(set(l))] on strings. *)
Fixpoint insert_sorted (s : string) (l : list string) : list string :=
  match l with
  | [] => [s]
  | t :: l' =>
      match String.compare s t with
      | Lt => s :: l
      | Eq => l
      | Gt => t :: insert_sorted s l'
      end
  end.

Definition sorted_set (l : list string) : list string :=
  foldr insert_sorted [] l.

Module ZyteJobsComparisonMonitor.
Section Methods.
Context `{StrConversions}.

(** The service, the tags of the current job as found in the environment
    variable SHUB_JOB_DATA ([None]: no ["tags"] entry), and the number of
    iterations granted to the pagination loop. *)
Variable client : ZyteClient.
Variable current_job_tags : option (list string).
Variable fuel : nat.

(** The empty dict [{}] of the source reads as the empty list: both are
    false where the result is tested. *)
Definition _get_tags_to_filter (self : MonitorData) : result (list string) :=
  desired_tags ← getlist (crawler_settings self) SPIDERMON_JOBS_COMPARISON_TAGS [];
  match desired_tags with
  | [] => Ok []
  | _ =>
      match current_job_tags with
      | None | Some [] => Ok []
      | Some current_tags =>
          Ok (sorted_set
                (filter (fun t => bool_decide (t ∈ current_tags)) desired_tags))
      end
  end.

(** One call of [zyte.client.spider.jobs.list]. *)
Definition list_jobs (tags states : list string) (number_of_jobs start : Z)
  : list job :=
  jobs_list client
    {| start := start; state := states; count := number_of_jobs;
       filters := match tags with [] => None | _ => Some tags end |}.

(** The [while _jobs:] loop of [_get_jobs]. *)
Fixpoint _get_jobs_loop (fuel : nat) (tags states : list string)
         (number_of_jobs : Z) (jobs : list job) (start : Z)
         (_jobs : list job) : partial (list job) :=
  match _jobs with
  | [] => Done (Ok jobs)
  | _ :: _ =>
      match fuel with
      | O => Diverge
      | S fuel' =>
          let jobs := jobs ++ _jobs in
          let start := start + 1000 in
          let _jobs := list_jobs tags states number_of_jobs start in
          _get_jobs_loop fuel' tags states number_of_jobs jobs start _jobs
      end
  end.

Definition _get_jobs (self : MonitorData) (states : list string)
           (number_of_jobs : Z) : partial (list job) :=
  tags ← Done (_get_tags_to_filter self);
  let jobs := [] in
  let start := 0 in
  let _jobs := list_jobs tags states number_of_jobs start in
  _get_jobs_loop fuel tags states number_of_jobs jobs start _jobs.

Definition get_threshold (self : MonitorData) : partial Z :=
  number_of_jobs ← Done (getint (crawler_settings self) SPIDERMON_JOBS_COMPARISON 0);
  threshold ← Done (getfloat (crawler_settings self)
                      SPIDERMON_JOBS_COMPARISON_THRESHOLD (S754_zero false));
  states ← Done (getlist (crawler_settings self) SPIDERMON_JOBS_COMPARISON_STATES
                   ["finished"]);
  jobs ← _get_jobs self states number_of_jobs;
  Done (
    previous_count ←
      int_truediv (sum ((fun job : job => dict_get job "items" 0) <$> jobs))
                  (Z.of_nat (length jobs));
    let expected_item_extracted := math_ceil (float_mul previous_count threshold) in
    expected_item_extracted).

(** The class: [stat_name], [assert_type], and the method above. *)
Definition cls : StatMonitorClass :=
  {| class_name := "ZyteJobsComparisonMonitor";
     monitor_name := "Jobs Comparison Monitor";
     stat_name := "item_scraped_count";
     assert_type := ">=";
     threshold_setting := None;
     Monitors.get_threshold := Some (fun self => n ← get_threshold self; Done (Ok (VInt n)));
     fail_if_stat_missing := true;
     threshold_datatype := DFloat |}.

Definition run {R} (self : MonitorData) (super_run : result R) : result R :=
  not_configured ←
    (if bool_decide (crawler_settings self !! SPIDERMON_JOBS_COMPARISON = None)
     then Ok true
     else number_of_jobs ← getint (crawler_settings self) SPIDERMON_JOBS_COMPARISON 0;
          Ok (number_of_jobs <=? 0));
  if not_configured : bool then
    Raise (NotConfigured (Format
      "Configure SPIDERMON_JOBS_COMPARISON to your project settings to use {}."
      [VStr (monitor_name cls)]))
  else
    not_configured ←
      (if bool_decide (crawler_settings self !! SPIDERMON_JOBS_COMPARISON_THRESHOLD = None)
       then Ok true
       else threshold ← getfloat (crawler_settings self)
                          SPIDERMON_JOBS_COMPARISON_THRESHOLD (S754_zero false);
            compare_op OpLe (VFloat threshold) (VInt 0));
    if not_configured : bool then
      Raise (NotConfigured (Format
        "Configure SPIDERMON_JOBS_COMPARISON_THRESHOLD to your project settings to use {}."
        [VStr (monitor_name cls)]))
    else BaseStatMonitor.run cls self super_run.
End Methods.
End ZyteJobsComparisonMonitor.

(** ** Python helpers of the monitors below *)

(** [str(n)] for an integer, as an f-string substitutes it. *)
Definition str_int (n : Z) : string :=
  DecimalString.NilZero.string_of_int (Z.to_int n).

(** The line break and the double quote, as strings. *)
Definition newline : string := String "010"%char EmptyString.
Definition double_quote : string := String "034"%char EmptyString.

(** [v in l] for a list of strings: some element is equal to [v]. *)
Definition is_in (v : value) (l : list string) : bool :=
  existsb (fun s => equal v (VStr s)) l.

(** The keys of [{k: ... for k in l}], in the order of their first
    occurrence; a list is not hashable. *)
Fixpoint first_occurrences (seen l : list value) : list value :=
  match l with
  | [] => []
  | k :: l' =>
      if existsb (equal k) seen then first_occurrences seen l'
      else k :: first_occurrences (k :: seen) l'
  end.

Definition dict_keys (l : list value) : result (list value) :=
  if existsb (fun k => match k with VList _ => true | _ => false end) l
  then Raise TypeError
  else Ok (first_occurrences [] l).

(** ** BaseScrapyMonitor *)

Module BaseScrapyMonitor.

(** [doc] is [self.__class__.__doc__], [None] for a class without a
    docstring; [super_description] is [super().monitor_description].  The
    result is [None] where the index [[0]] would be out of range. *)
Definition monitor_description (doc : option string) (super_description : string)
  : option string :=
  match doc with
  | Some doc =>
      if truthy (VStr doc) then split "010"%char doc !! 0%nat
      else Some super_description
  | None => Some super_description
  end.

End BaseScrapyMonitor.

(** ** FinishReasonMonitor *)

Definition SPIDERMON_EXPECTED_FINISH_REASONS : string :=
  "SPIDERMON_EXPECTED_FINISH_REASONS".

Module FinishReasonMonitor.
Section Methods.
Variable self : MonitorData.

Definition test_should_finish_with_expected_reason : result unit :=
  expected_reasons ←
    getlist (crawler_settings self) SPIDERMON_EXPECTED_FINISH_REASONS ["finished"];
  let finished_reason := dict_get (stats self) "finish_reason" VNone in
  let msg :=
    Format ("Finished with " +:+ double_quote +:+ "{}" +:+ double_quote
            +:+ " the expected reasons are {}")
           [finished_reason; VList expected_reasons] in
  assertTrue (is_in finished_reason expected_reasons) msg.
End Methods.
End FinishReasonMonitor.

(** ** UnwantedHTTPCodesMonitor *)

Definition SPIDERMON_UNWANTED_HTTP_CODES : string := "SPIDERMON_UNWANTED_HTTP_CODES".
Definition SPIDERMON_UNWANTED_HTTP_CODES_MAX_COUNT : string :=
  "SPIDERMON_UNWANTED_HTTP_CODES_MAX_COUNT".

(** What [getdictorlist] returns: the items of a dict, in its order, or the
    elements of a list. *)
Inductive dict_or_list :=
  | IsDict (items : list (value * value))
  | IsList (elements : list value).

Module UnwantedHTTPCodesMonitor.

Definition DEFAULT_UNWANTED_HTTP_CODES_MAX_COUNT : Z := 10.
Definition DEFAULT_UNWANTED_HTTP_CODES : list Z :=
  [400; 407; 429; 500; 502; 503; 504; 523; 540; 541].

Section Methods.
Context `{StrConversions}.

(** [spidermon.utils.settings.getdictorlist(crawler, name, default)], which
    is not in this file: the method is taken for any such function. *)
Variable getdictorlist : gmap string value -> string -> list Z -> dict_or_list.

Variable self : MonitorData.

(** The [for code, max_errors in unwanted_http_codes.items()] loop. *)
Fixpoint check_codes (items : list (value * value)) : result unit :=
  match items with
  | [] => Ok ()
  | (code, max_errors) :: items' =>
      code ← int code;
      let count :=
        dict_get (stats self)
                 ("downloader/response_status_count/" +:+ str_int code) (VInt 0) in
      let msg :=
        Format "Found {} Responses with status code={} - This exceed the limit of {}"
               [count; VInt code; max_errors] in
      within_limit ← compare_op OpLe count max_errors;
      assertTrue within_limit msg;;
      check_codes items'
  end.

Definition test_check_unwanted_http_codes : result unit :=
  let unwanted_http_codes :=
    getdictorlist (crawler_settings self) SPIDERMON_UNWANTED_HTTP_CODES
                  DEFAULT_UNWANTED_HTTP_CODES in
  errors_max_count ←
    getint (crawler_settings self) SPIDERMON_UNWANTED_HTTP_CODES_MAX_COUNT
           DEFAULT_UNWANTED_HTTP_CODES_MAX_COUNT;
  unwanted_http_codes ←
    match unwanted_http_codes return result (list (value * value)) with
    | IsDict items => Ok items
    | IsList elements =>
        codes ← dict_keys elements;
        Ok (map (fun code : value => (code, VInt errors_max_count)) codes)
    end;
  check_codes unwanted_http_codes.
End Methods.
End UnwantedHTTPCodesMonitor.

(** ** FieldCoverageMonitor: the check *)

Module FieldCoverageRules.
Section Methods.

(** [settings.getdict(name)], the items of the dict it returns in their
    order; a dictionary is not among the values modelled, so the method is
    taken for any such function. *)
Variable getdict : gmap string value -> string -> result (list (string * value)).

Variable self : MonitorData.

(** The loop over the rules; a failure is kept as the three values its
    text is formatted from: the field, the expected and the actual
    coverage. *)
Fixpoint collect_failures (rules : list (string * value))
         (failures : list (string * value * value))
  : result (list (string * value * value)) :=
  match rules with
  | [] => Ok failures
  | (field, expected_coverage) :: rules' =>
      let actual_coverage :=
        dict_get (stats self) ("spidermon_field_coverage/" +:+ field) (VInt 0) in
      below ← compare_op OpLt actual_coverage expected_coverage;
      collect_failures rules'
        (if below : bool
         then failures ++ [(field, expected_coverage, actual_coverage)]
         else failures)
  end.

(** The message: the texts of the failures joined by line breaks and
    substituted into the heading, written as one template with the values
    of all the failures in order. *)
Definition failures_message (failures : list (string * value * value)) : message :=
  Format (newline +:+ "The following items did not meet field coverage rules:"
          +:+ newline
          +:+ String.concat newline
                ((fun _ => "{} (expected {}, got {})") <$> failures))
         (failures ≫= fun '(field, expected, actual) => [VStr field; expected; actual]).

Definition test_check_if_field_coverage_rules_are_met : result unit :=
  let failures := [] in
  field_coverage_rules ←
    getdict (crawler_settings self) "SPIDERMON_FIELD_COVERAGE_RULES";
  failures ← collect_failures field_coverage_rules failures;
  let msg := failures_message failures in
  assertTrue (length failures =? 0)%nat msg.
End Methods.
End FieldCoverageRules.

End Monitors.

(* ===================================================================== *)
(** * The monitor engine                                                  *)
(* ===================================================================== *)

(** The engine ([Monitor], [MonitorSuite], [Rule], [Action], the result
    tree: the package [spidermon] that both source files import) is not among
    the source files.  This module follows the specification instead, section
    by section; every definition says which part it renders. *)

Module Engine.
Import Py.

(** Modelled from the spec: the engine's FactContext (section 3), a mapping
    from string key to value, immutable during a run. *)
Abbreviation FactContext := (gmap string value).

(** Modelled from the spec: the lookup of the engine's FactContext, strict
    (section 3): attribute access and key access on an absent key both fail
    with KeyNotFound. *)
Definition fact (facts : FactContext) (key : string) : result value :=
  match facts !! key with
  | Some v => Ok v
  | None => Raise (KeyNotFound key)
  end.

(** Modelled from the spec: the engine's Severity enumeration (section 3). *)
Inductive Severity := LOW | NORMAL | HIGH.

(** Modelled from the spec: the engine's Trigger enumeration (section 3). *)
Inductive Trigger := ALWAYS | PASSED | FAILED | ERROR.

(** Modelled from the spec: the engine's Outcome of one rule evaluation
    (section 3). *)
Inductive Outcome :=
  | Passed
  | Failed (message : string)
  | Errored (message : string) (cause : exn).

(** Modelled from the spec: the terminal states of a monitor or suite node
    of the engine (state machine of section 4.6). *)
Inductive Status := SPassed | SFailed | SErrored | SSkipped.

(** Modelled from the spec: the engine's textual rules, as the restricted
    expression language of sections 4.1 and 9: attribute and key access to
    the facts, comparison, boolean operators.  A rule keeps its text and
    carries the expression the text denotes. *)
Inductive expr :=
  | Const (v : value)
  | Attr (name : string)
  | Item (key : string)
  | Compare (op : cmpop) (l r : expr)
  | And (l r : expr)
  | Or (l r : expr)
  | Not (e : expr).

(** Modelled from the spec: the engine's evaluation of a textual rule
    against the facts; a missing key or a type error is raised to the Check
    Evaluator (section 4.1). *)
Fixpoint eval (facts : FactContext) (e : expr) : result value :=
  match e with
  | Const v => Ok v
  | Attr name => fact facts name
  | Item key => fact facts key
  | Compare op l r =>
      a ← eval facts l; b ← eval facts r; VBool <$> compare_op op a b
  | And l r => a ← eval facts l; if truthy a then eval facts r else Ok a
  | Or l r => a ← eval facts l; if truthy a then Ok a else eval facts r
  | Not e => a ← eval facts e; Ok (VBool (negb (truthy a)))
  end.

(** Modelled from the spec: the rule representations the engine's Rule
    Adapter accepts (section 4.1), those that yield one rule each. *)
Inductive Rule :=
  | Predicate (op : FactContext -> result bool)
  | Expression (text : string) (e : expr)
  | CheckObject (check : FactContext -> result bool).

(** Modelled from the spec: the engine's RuleUnit (section 3). *)
Record RuleUnit := {
  rule_name : string;
  severity : Severity;
  check : FactContext -> result bool;
}.

(** Modelled from the spec: the engine's ResultNode (section 3). The
    constructor is the node kind; a rule node holds its Outcome, a monitor or
    suite node its aggregate status and its children in evaluation order; a
    monitor node also holds the action-execution errors logged into it
    (section 4.4, step 5). *)
Inductive ResultNode :=
  | RuleNode (name : string) (outcome : Outcome)
  | MonitorNode (name : string) (status : Status) (children : list ResultNode)
                (action_errors : list (string * exn))
  | SuiteNode (name : string) (status : Status) (children : list ResultNode).

(** Modelled from the spec: the status of a node of the engine's result
    tree; for a rule node, that of its Outcome. *)
Definition node_status (n : ResultNode) : Status :=
  match n with
  | RuleNode _ Passed => SPassed
  | RuleNode _ (Failed _) => SFailed
  | RuleNode _ (Errored _ _) => SErrored
  | MonitorNode _ s _ _ => s
  | SuiteNode _ s _ => s
  end.

(** Modelled from the spec: the children of a node of the engine's result
    tree, in evaluation order. *)
Definition node_children (n : ResultNode) : list ResultNode :=
  match n with
  | RuleNode _ _ => []
  | MonitorNode _ _ c _ => c
  | SuiteNode _ _ c => c
  end.

(** Modelled from the spec: the action-execution errors logged into a
    monitor node of the engine's result tree. *)
Definition node_action_errors (n : ResultNode) : list (string * exn) :=
  match n with
  | MonitorNode _ _ _ errs => errs
  | _ => []
  end.

(** Modelled from the spec: the engine's ActionUnit (section 3);
    [action_run] takes the monitor's result and returns or raises. *)
Record ActionUnit := {
  action_name : string;
  trigger : Trigger;
  action_run : ResultNode -> result unit;
}.

(** Modelled from the spec: the engine's Monitor (section 3), with the
    configuration validation of section 4.4, step 1, and the presence of the
    optional setup and teardown hooks. *)
Record Monitor := {
  name : string;
  validate : FactContext -> result unit;
  rules : list RuleUnit;
  actions : list ActionUnit;
  has_setup : bool;
  has_teardown : bool;
}.

(** Modelled from the spec: the engine's MonitorSuite (section 3), a tree
    of monitors and suites. *)
Inductive Suite :=
  | OfMonitor (m : Monitor)
  | MonitorSuite (name : string) (children : list Suite).

(** Modelled from the spec: the side effects of a run of the engine, in the
    order section 4.4 gives them: setup hook, rule evaluations, teardown
    hook, actions fired. *)
Inductive event :=
  | SetUp (m : Monitor)
  | Evaluated (m : Monitor) (r : RuleUnit)
  | TearDown (m : Monitor)
  | Fired (m : Monitor) (a : ActionUnit).

(** Modelled from the spec: what it leaves open about the engine, and any
    implementation has to fix. *)
Record Conventions := {
  (** the message of a Failed outcome (section 4.3) *)
  default_message : string;
  (** [str(condition)] (section 4.3) *)
  condition_message : exn -> string;
  (** the name of an unnamed rule, of an unnamed action (section 3) *)
  generated_rule_name : Rule -> string;
  generated_action_name : string;
  (** the severity of a rule given without one *)
  default_severity : Severity;
  (** whether a Skipped monitor still runs its ALWAYS actions (section 8:
      only ALWAYS, if any) or no action at all (section 4.4, step 1) *)
  skipped_runs_always_actions : bool;
}.

Section Run.
Variable conv : Conventions.

(** ** 4.1 Rule Adapter and 4.2 Action Adapter *)

(** Modelled from the spec: the check the engine's Rule Adapter derives
    from each rule representation; a textual rule holds when its expression
    evaluates to a true value. *)
Definition rule_check (r : Rule) : FactContext -> result bool :=
  match r with
  | Predicate op => op
  | Expression _ e => fun facts => truthy <$> eval facts e
  | CheckObject check => check
  end.

(** Modelled from the spec: the engine's Rule Adapter (section 4.1): it
    wraps the rule and never evaluates it; name and severity are optional. *)
Definition adapt_rule (r : Rule) (name : option string)
           (level : option Severity) : RuleUnit :=
  {| rule_name := default (generated_rule_name conv r) name;
     severity := default (default_severity conv) level;
     check := rule_check r |}.

(** Modelled from the spec: the engine's Action Adapter (section 4.2); the
    trigger defaults to ALWAYS (section 3). *)
Definition adapt_action (run : ResultNode -> result unit)
           (name : option string) (trig : option Trigger) : ActionUnit :=
  {| action_name := default (generated_action_name conv) name;
     trigger := default ALWAYS trig;
     action_run := run |}.

(** Modelled from the spec: the engine's [addRule] (registration surface
    of section 6). *)
Definition add_rule (m : Monitor) (r : Rule) (name : option string)
           (level : option Severity) : Monitor :=
  {| name := Engine.name m; validate := validate m;
     rules := rules m ++ [adapt_rule r name level];
     actions := actions m;
     has_setup := has_setup m; has_teardown := has_teardown m |}.

(** Modelled from the spec: the engine's [addAction] (registration surface
    of section 6). *)
Definition add_action (m : Monitor) (run : ResultNode -> result unit)
           (name : option string) (trig : option Trigger) : Monitor :=
  {| name := Engine.name m; validate := validate m;
     rules := rules m;
     actions := actions m ++ [adapt_action run name trig];
     has_setup := has_setup m; has_teardown := has_teardown m |}.

(** Modelled from the spec: the engine's Monitor constructor, without rules
    or actions: no validation to fail, no hooks. *)
Definition new_monitor (name : string) : Monitor :=
  {| name := name; validate := fun _ => Ok ();
     rules := []; actions := [];
     has_setup := false; has_teardown := false |}.

(** Modelled from the spec: the engine's Monitor constructor, from the
    name and the ordered lists of rules and actions (section 6), each with
    its optional name and its optional severity or trigger. *)
Definition monitor_of (name : string)
           (rules : list (option string * Rule * option Severity))
           (actions : list (option string * (ResultNode -> result unit)
                            * option Trigger)) : Monitor :=
  let m := foldl (fun m '(n, r, level) => add_rule m r n level)
                 (new_monitor name) rules in
  foldl (fun m '(n, a, trig) => add_action m a n trig) m actions.

(** ** 4.3 Check Evaluator *)

(** Modelled from the spec: the engine's Check Evaluator (section 4.3):
    true is Passed, false is Failed, any raised condition is Errored;
    nothing escapes. *)
Definition evaluate (r : RuleUnit) (facts : FactContext) : Outcome :=
  match check r facts with
  | Ok true => Passed
  | Ok false => Failed (default_message conv)
  | Raise condition => Errored (condition_message conv condition) condition
  end.

(** ** 4.4 Monitor *)

(** Modelled from the spec: [Monitor.run], step 3, accumulation of the
    aggregate status: any Errored, monitor errored; else any Failed, monitor
    failed; else monitor passed. *)
Definition accumulate (status : Status) (o : Outcome) : Status :=
  match o with
  | Errored _ _ => SErrored
  | Failed _ => match status with SErrored => SErrored | _ => SFailed end
  | Passed => status
  end.

(** Modelled from the spec: [Monitor.run], step 3, the rules in order; each
    outcome is appended as a child and accumulated. *)
Fixpoint run_rules (m : Monitor) (facts : FactContext) (todo : list RuleUnit)
         (children : list ResultNode) (status : Status) (log : list event)
  : list ResultNode * Status * list event :=
  match todo with
  | [] => (children, status, log)
  | r :: todo' =>
      let o := evaluate r facts in
      run_rules m facts todo'
                (children ++ [RuleNode (rule_name r) o])
                (accumulate status o)
                (log ++ [Evaluated m r])
  end.

(** Modelled from the spec: [Monitor.run], step 5, when an action fires. *)
Definition fires (t : Trigger) (status : Status) : bool :=
  match t, status with
  | ALWAYS, _ => true
  | PASSED, SPassed => true
  | FAILED, SFailed => true
  | ERROR, SErrored => true
  | _, _ => false
  end.

(** Modelled from the spec: [Monitor.run], step 5, the logging of an
    action-execution error into the monitor's node. *)
Definition log_action_error (n : ResultNode) (action : string) (e : exn)
  : ResultNode :=
  match n with
  | MonitorNode name status children errs =>
      MonitorNode name status children (errs ++ [(action, e)])
  | _ => n
  end.

(** Modelled from the spec: [Monitor.run], step 5, the actions in order; a
    condition an action raises is logged into the node and the next action
    runs. *)
Fixpoint dispatch (m : Monitor) (status : Status) (todo : list ActionUnit)
         (node : ResultNode) (log : list event) : ResultNode * list event :=
  match todo with
  | [] => (node, log)
  | a :: todo' =>
      if fires (trigger a) status then
        let node' :=
          match action_run a node with
          | Ok _ => node
          | Raise e => log_action_error node (action_name a) e
          end in
        dispatch m status todo' node' (log ++ [Fired m a])
      else dispatch m status todo' node log
  end.

(** Modelled from the spec: [Monitor.run] (section 4.4), steps 1 to 6.
    Validation fails when it raises (NotConfigured, section 7); the monitor
    is then Skipped and none of its rules is evaluated. *)
Definition run_monitor (m : Monitor) (facts : FactContext)
  : ResultNode * list event :=
  match validate m facts with
  | Raise _ =>
      let node := MonitorNode (name m) SSkipped [] [] in
      if skipped_runs_always_actions conv
      then dispatch m SSkipped (actions m) node []
      else (node, [])
  | Ok _ =>
      let log := if has_setup m then [SetUp m] else [] in
      let '(children, status, log) := run_rules m facts (rules m) [] SPassed log in
      let log := if has_teardown m then log ++ [TearDown m] else log in
      dispatch m status (actions m) (MonitorNode (name m) status children []) log
  end.

(** ** 4.5 Monitor Suite and 4.6 Runner *)

(** Modelled from the spec: what a child counts for in the status of the
    engine's suite (section 4.5). *)
Definition failed_or_errored (n : ResultNode) : bool :=
  match node_status n with
  | SFailed | SErrored => true
  | _ => false
  end.

(** Modelled from the spec: the status of the engine's suite (section
    4.5), the OR of failed or errored over its children; a Skipped child adds
    nothing. *)
Definition suite_status (children : list ResultNode) : Status :=
  if existsb failed_or_errored children then SFailed else SPassed.

(** Modelled from the spec: [MonitorSuite.run] and the Runner (sections 4.5
    and 4.6): children in declared order against the same facts. *)
Fixpoint run (t : Suite) (facts : FactContext) : ResultNode * list event :=
  match t with
  | OfMonitor m => run_monitor m facts
  | MonitorSuite name children =>
      let results := map (fun c => run c facts) children in
      let nodes := map fst results in
      (SuiteNode name (suite_status nodes) nodes, concat (map snd results))
  end.
End Run.

End Engine.

(* ===================================================================== *)
(** * The monitors of examples/monitors.py                                *)
(* ===================================================================== *)

Module Examples.
Import Py Engine.

Definition STATS : FactContext :=
  {[ "downloader/response_count" := VInt 63785;
     "item_scraped_count" := VInt 29836;
     "finish_reason" := VStr "finished" ]}.

Definition DummyAction : ResultNode -> result unit := fun result => Ok ().

(** [run] prints the message and returns. *)
Definition MessageAction (msg : string) : ResultNode -> result unit :=
  fun result => Ok ().

Definition BombAction : ResultNode -> result unit :=
  fun result => Raise (Exception (Text "Boom!")).

Definition rule_as_function : Rule :=
  Predicate (fun stats => v ← fact stats "finish_reason";
                          Ok (equal v (VStr "finished"))).

(** The string literals inside the rule texts are written with single
    quotes here. *)
Definition finish_reason_is_finished : Rule :=
  Expression "stats.finish_reason == 'finished'"
             (Compare OpEq (Attr "finish_reason") (Const (VStr "finished"))).

Definition finish_reason_is_not_finished : Rule :=
  Expression "stats.finish_reason != 'finished'"
             (Compare OpNe (Attr "finish_reason") (Const (VStr "finished"))).

Definition a_non_existing_key_is_whatever : Rule :=
  Expression "stats.a_non_existing_key == 'whatever'"
             (Compare OpEq (Attr "a_non_existing_key") (Const (VStr "whatever"))).

Section Monitors.
Variable conv : Conventions.

Definition MONITOR_A : Monitor :=
  monitor_of conv "A. Monitor from parameters"
    [ (None, Predicate (fun stats => v ← fact stats "finish_reason";
                                     Ok (equal v (VStr "finished"))), None);
      (None, Predicate (fun stats => v ← fact stats "downloader/response_count";
                                     compare_op OpGt v (VInt 10000)), None) ]
    [ (None, MessageAction "finish reason is ok!", None) ].

Definition MONITOR_F : Monitor :=
  let m :=
    monitor_of conv "F. Rule levels and action triggers"
      [ (Some "Rule High", finish_reason_is_finished, Some HIGH);
        (Some "Rule Normal", finish_reason_is_not_finished, Some NORMAL);
        (Some "Rule Low", finish_reason_is_not_finished, Some LOW) ]
      [ (Some "Action runs always", DummyAction, None);
        (Some "Action runs always", DummyAction, Some ALWAYS);
        (Some "Action runs on passed", DummyAction, Some PASSED);
        (Some "Action runs on failed", DummyAction, Some FAILED);
        (Some "Action runs on error", DummyAction, Some ERROR) ] in
  let m := add_rule conv m rule_as_function (Some "Rule Low 2") (Some LOW) in
  add_action conv m DummyAction (Some "Action on passed") (Some PASSED).

Definition MONITOR_G : Monitor :=
  monitor_of conv "G. Rule and Action Errors"
    [ (None, a_non_existing_key_is_whatever, None) ]
    [ (Some "Action on error", BombAction, Some ERROR) ].
End Monitors.

End Examples.

(* ===================================================================== *)
(** * What the specification says, in its own terms                       *)
(* ===================================================================== *)

(** The definitions of this module follow the wording of the properties
    below, not the code; the theorems compare the two. *)

Module Stated.
Import Py.

(** The comparison each recognised [assert_type] stands for:
    [>], [>=], [<], [<=], [==], [!=]. *)
Definition comparison_of (assert_type : string) : option cmpop :=
  if decide (assert_type = ">") then Some OpGt
  else if decide (assert_type = ">=") then Some OpGe
  else if decide (assert_type = "<") then Some OpLt
  else if decide (assert_type = "<=") then Some OpLe
  else if decide (assert_type = "==") then Some OpEq
  else if decide (assert_type = "!=") then Some OpNe
  else None.

(** The jobs comparison is not configured: [SPIDERMON_JOBS_COMPARISON] is
    absent or its integer value is at most 0, or
    [SPIDERMON_JOBS_COMPARISON_THRESHOLD] is absent or its float value is at
    most 0. *)
Definition jobs_comparison_not_configured `{StrConversions}
           (settings : gmap string value) : Prop :=
  (settings !! Monitors.SPIDERMON_JOBS_COMPARISON = None \/
   exists n, Scrapy.getint settings Monitors.SPIDERMON_JOBS_COMPARISON 0 = Ok n /\ n <= 0)
  \/
  (settings !! Monitors.SPIDERMON_JOBS_COMPARISON_THRESHOLD = None \/
   exists x, Scrapy.getfloat settings Monitors.SPIDERMON_JOBS_COMPARISON_THRESHOLD
               (S754_zero false) = Ok x /\
             SFleb x (S754_zero false) = true).

(** The query number [i] of the pagination, counting from 0: page offset
    [1000 * i], the caller's states and requested count, the tag filter. *)
Definition page (client : Monitors.ZyteClient) (tags states : list string)
           (number_of_jobs : Z) (i : nat) : list Monitors.job :=
  Monitors.jobs_list client
    {| Monitors.start := 1000 * Z.of_nat i;
       Monitors.state := states;
       Monitors.count := number_of_jobs;
       Monitors.filters := match tags with [] => None | _ => Some tags end |}.

(** The item count of a job, 0 when the job has none; their total; and the
    threshold the comparison expects: the average item count times the
    configured threshold, rounded up.  The division, the product and the
    rounding are Python's: the quotient of two integers as a float, the
    float product, [math.ceil]. *)
Definition item_count (j : Monitors.job) : Z := default 0 (j !! "items").

Definition total_items (jobs : list Monitors.job) : Z :=
  foldr (fun j total => item_count j + total) 0 jobs.

Definition expected_threshold (jobs : list Monitors.job) (threshold : float)
  : result Z :=
  average ← int_truediv (total_items jobs) (Z.of_nat (length jobs));
  math_ceil (float_mul average threshold).

(** The numbers of Failed and of Errored outcomes among the rules of a
    monitor, and the aggregate status the counts determine: Errored if some
    rule errored, otherwise Failed if some rule failed, otherwise Passed. *)
Definition is_failed (o : Engine.Outcome) : bool :=
  match o with Engine.Failed _ => true | _ => false end.

Definition is_errored (o : Engine.Outcome) : bool :=
  match o with Engine.Errored _ _ => true | _ => false end.

Definition count_outcomes (p : Engine.Outcome -> bool)
           (outcomes : list Engine.Outcome) : nat :=
  length (filter (fun o => p o = true) outcomes).

Definition aggregate (failed errored : nat) : Engine.Status :=
  if (0 <? errored)%nat then Engine.SErrored
  else if (0 <? failed)%nat then Engine.SFailed
  else Engine.SPassed.

(** The node of a rule: its name and the outcome of its evaluation. *)
Definition rule_node (conv : Engine.Conventions) (facts : Engine.FactContext)
           (r : Engine.RuleUnit) : Engine.ResultNode :=
  Engine.RuleNode (Engine.rule_name r) (Engine.evaluate conv r facts).

(** The outcomes recorded under a node, in order. *)
Definition rule_outcomes (n : Engine.ResultNode) : list Engine.Outcome :=
  omap (fun c => match c with Engine.RuleNode _ o => Some o | _ => None end)
       (Engine.node_children n).

(** A conversion of strings that accepts none.  The worked examples below
    use numeric settings only, on which every conversion agrees. *)
Definition no_strings : StrConversions :=
  {| int_of_str := fun _ => None; float_of_str := fun _ => None |}.

(** The number of responses with a status code that the job stats record,
    0 when they record none. *)
Definition status_count (stats : gmap string value) (code : Z) : value :=
  dict_get stats ("downloader/response_status_count/" +:+ Monitors.str_int code)
           (VInt 0).

(** A code is within its limit: it converts to an integer and the count of
    responses with that status is at most the limit. *)
Definition within_limit `{StrConversions} (stats : gmap string value)
           (item : value * value) : Prop :=
  exists code, int item.1 = Ok code /\
               compare_op OpLe (status_count stats code) item.2 = Ok true.

(** The coverage of a field that the job stats record, 0 when they record
    none; and whether a rule is not met: the coverage is below the one
    expected. *)
Definition field_coverage (stats : gmap string value) (field : string) : value :=
  dict_get stats ("spidermon_field_coverage/" +:+ field) (VInt 0).

Definition rule_is_unmet (stats : gmap string value) (rule : string * value)
  : bool :=
  match compare_op OpLt (field_coverage stats rule.1) rule.2 with
  | Ok below => below
  | Raise _ => false
  end.

End Stated.

(* ===================================================================== *)
(** * Worked examples                                                     *)
(* ===================================================================== *)

Module Worked.
Import Py Scrapy Unittest Monitors Engine.

Definition item_count_example : MonitorData :=
  {| crawler_settings := {[ "SPIDERMON_MIN_ITEMS" := VInt 10 ]};
     stats := {[ "item_scraped_count" := VInt 12 ]} |}.

Definition jobs_comparison_example : MonitorData :=
  {| crawler_settings :=
       {[ SPIDERMON_JOBS_COMPARISON := VInt 5;
          SPIDERMON_JOBS_COMPARISON_THRESHOLD := VFloat (S754_finite false 1 (-1)) ]};
     stats := {[ "item_scraped_count" := VInt 2 ]} |}.

Definition no_jobs : ZyteClient := {| jobs_list := fun _ => [] |}.

(** A service with three pages of two jobs each. *)
Definition three_pages : ZyteClient :=
  {| jobs_list := fun request =>
       if start request <? 3000
       then [ {[ "items" := start request + count request ]}; ∅ ]
       else [] |}.

(** A service that has jobs for the unfiltered listing alone. *)
Definition unfiltered_pages : ZyteClient :=
  {| jobs_list := fun request =>
       match filters request with
       | None => jobs_list three_pages request
       | Some _ => []
       end |}.

(** A service with one previous job, which has no item count. *)
Definition one_empty_job : ZyteClient :=
  {| jobs_list := fun request => if start request =? 0 then [∅] else [] |}.

(** A jobs comparison with a threshold that is not a number. *)
Definition nan_threshold_example : MonitorData :=
  {| crawler_settings :=
       {[ SPIDERMON_JOBS_COMPARISON := VInt 5;
          SPIDERMON_JOBS_COMPARISON_THRESHOLD := VFloat S754_nan ]};
     stats := {[ "item_scraped_count" := VInt 2 ]} |}.

(** The conventions of the worked examples. *)
Definition example_conventions : Conventions :=
  {| default_message := "the rule is false";
     condition_message := fun _ => "the rule raised";
     generated_rule_name := fun r =>
       match r with Expression text _ => text | _ => "rule" end;
     generated_action_name := "action";
     default_severity := NORMAL;
     skipped_runs_always_actions := true |}.

(** A suite of three monitors, the second of which is an [ItemCountMonitor]
    run without SPIDERMON_MIN_ITEMS. *)
Definition unconfigured_item_count : Monitor :=
  {| name := monitor_name ItemCountMonitor;
     validate := fun _ =>
       BaseStatMonitor.run ItemCountMonitor
         {| crawler_settings := ∅; stats := Examples.STATS |} (Ok ());
     rules := [adapt_rule example_conventions Examples.rule_as_function None None];
     actions :=
       [adapt_action example_conventions Examples.DummyAction None None;
        adapt_action example_conventions Examples.BombAction None (Some FAILED)];
     has_setup := true; has_teardown := true |}.

(** A [getdictorlist] for a crawler without SPIDERMON_UNWANTED_HTTP_CODES:
    the default list. *)
Definition default_codes (settings : gmap string value) (name : string)
           (default : list Z) : dict_or_list :=
  IsList (VInt <$> default).

(** A [getdictorlist] for a crawler whose SPIDERMON_UNWANTED_HTTP_CODES is
    the dict [{400: 100, 500: 0, 503: 5}]. *)
Definition codes_with_limits (settings : gmap string value) (name : string)
           (default : list Z) : dict_or_list :=
  IsDict [(VInt 400, VInt 100); (VInt 500, VInt 0); (VInt 503, VInt 5)].

Definition http_example : MonitorData :=
  {| crawler_settings := ∅;
     stats := {[ "downloader/response_status_count/400" := VInt 7;
                 "downloader/response_status_count/500" := VInt 1;
                 "downloader/response_status_count/503" := VInt 9 ]} |}.

(** A [getdict] for a crawler with three field coverage rules. *)
Definition coverage_rules (settings : gmap string value) (name : string)
  : result (list (string * value)) :=
  Ok [("dict/a", VInt 1); ("dict/b", VInt 1); ("dict/c", VInt 1)].

Definition coverage_example : MonitorData :=
  {| crawler_settings := ∅;
     stats := {[ "spidermon_field_coverage/dict/b" := VInt 1 ]} |}.

End Worked.

(* ===================================================================== *)
(** * Properties                                                          *)
(* ===================================================================== *)

Import Py Scrapy.

(** ** Python's arithmetic *)

(** [scaled_ceil m e] is the ceiling of [m * 2^e]: the integers that bound
    [m * 2^e] from above are those that bound [scaled_ceil m e]. *)
Lemma scaled_ceil_least (m e n : Z) :
  scaled_ceil m e <= n <->
  if 0 <=? e then m * 2 ^ e <= n else m <= n * 2 ^ (- e).
Proof.
  unfold scaled_ceil. destruct (0 <=? e) eqn:He; [reflexivity|].
  apply Z.leb_gt in He.
  assert (Hd : 0 < 2 ^ (- e)) by (apply Z.pow_pos_nonneg; lia).
  pose proof (Z.mul_div_le (- m) _ Hd) as Hlow.
  pose proof (Z.mul_succ_div_gt (- m) _ Hd) as Hhigh.
  split; intros Hn; nia.
Qed.

(** ** Helper lemmas on the settings getters *)

Section SettingsFacts.
Context `{StrConversions}.

Lemma get_absent (s : gmap string value) name default :
  s !! name = None -> get s name default = default.
Proof. intros E. unfold get, getitem, dict_get. now rewrite E. Qed.

Lemma getint_absent (s : gmap string value) name default :
  s !! name = None -> getint s name default = Ok default.
Proof. intros E. unfold getint. now rewrite get_absent. Qed.

Lemma getbool_absent (s : gmap string value) name default :
  s !! name = None -> getbool s name default = Ok default.
Proof.
  intros E. unfold getbool. rewrite get_absent by assumption.
  now destruct default.
Qed.
End SettingsFacts.

(** ** The stat monitors *)

Module StatMonitorFacts.
Import Unittest Monitors Stated.

Lemma assertions_spec (assert_type : string) :
  BaseStatMonitor.assertions !! assert_type
  = Unittest.assertCompare <$> comparison_of assert_type.
Proof.
  unfold comparison_of.
  repeat case_decide; subst; try reflexivity.
  unfold BaseStatMonitor.assertions. cbn [list_to_map foldr uncurry fst snd curry].
  now rewrite !lookup_insert_ne, lookup_empty by congruence.
Qed.

Lemma run_test_assertCompare op first second msg :
  run_test (assertCompare op first second msg) = Passed
  <-> compare_op op first second = Ok true.
Proof.
  unfold assertCompare.
  destruct (compare_op op first second) as [[|]|e]; cbn.
  - tauto.
  - split; discriminate.
  - split; [destruct e|]; discriminate.
Qed.

End StatMonitorFacts.

Import Unittest Monitors Stated Worked StatMonitorFacts.

(** The check of a stat monitor, once its threshold is known. *)
Lemma test_stat_monitor_with_threshold `{StrConversions}
        (cls : StatMonitorClass) (self : MonitorData)
        (threshold : value) (op : cmpop) :
  BaseStatMonitor._get_threshold_value cls self = Done (Ok threshold) ->
  comparison_of (assert_type cls) = Some op ->
  exists r,
    BaseStatMonitor.test_stat_monitor cls self = Done r /\
    match stats self !! stat_name cls with
    | None =>
        let message := Format "Unable to find '{}' in job stats."
                              [VStr (stat_name cls)] in
        run_test r = if fail_if_stat_missing cls
                     then Failed message else Skipped message
    | Some value =>
        run_test r = Passed <-> compare_op op value threshold = Ok true
    end.
Proof.
  intros Hthreshold Hop.
  unfold BaseStatMonitor.test_stat_monitor.
  rewrite Hthreshold. cbn [mbind partial_bind bind_partial].
  eexists. split; [reflexivity|].
  rewrite assertions_spec, Hop. cbn [fmap option_fmap option_map].
  unfold dict_get.
  destruct (stats self !! stat_name cls) as [value|] eqn:Hstat.
  - rewrite bool_decide_eq_false_2 by discriminate.
    cbn [mbind result_bind bind]. apply run_test_assertCompare.
  - rewrite bool_decide_eq_true_2 by reflexivity.
    now destruct (fail_if_stat_missing cls).
Qed.





(** ** The jobs comparison monitor *)

Lemma float_le_zero (x : float) :
  compare_op OpLe (VFloat x) (VInt 0) = Ok (SFleb x (S754_zero false)).
Proof.
  unfold compare_op, order, SFleb. cbn [as_number number_compare mbind result_bind bind].
  f_equal.
  destruct x as [s|s| |s m e]; cbn; try reflexivity; try now destruct s.
  destruct (0 <=? e) eqn:He.
  - apply Z.leb_le in He.
    assert (Hpow : 0 < 2 ^ e) by now apply Z.pow_pos_nonneg.
    destruct s; cbn [signed].
    + assert (Z.neg m * 2 ^ e < 0) by nia.
      destruct (Z.neg m * 2 ^ e); try lia. reflexivity.
    + assert (0 < Z.pos m * 2 ^ e) by nia.
      destruct (Z.pos m * 2 ^ e); try lia. reflexivity.
  - now destruct s.
Qed.

Lemma jobs_comparison_super_run `{StrConversions} client tags fuel self
      {R} (super_run : result R) :
  BaseStatMonitor.run (ZyteJobsComparisonMonitor.cls client tags fuel) self super_run
  = super_run.
Proof. reflexivity. Qed.

(** C7. [ZyteJobsComparisonMonitor.run] raises NotConfigured, whatever the
    run of the monitor proper would do and before any of it, if and only if
    [SPIDERMON_JOBS_COMPARISON] is absent or its integer value is at most 0,
    or [SPIDERMON_JOBS_COMPARISON_THRESHOLD] is absent or its float value is
    at most 0; otherwise it is the run of the monitor proper.  The settings
    that are present are taken to have an integer, respectively a float,
    value. *)
Theorem jobs_comparison_run_not_configured `{StrConversions}
        (client : ZyteClient) (tags : option (list string)) (fuel : nat)
        (self : MonitorData) :
  let settings := crawler_settings self in
  (settings !! SPIDERMON_JOBS_COMPARISON <> None ->
   exists n, getint settings SPIDERMON_JOBS_COMPARISON 0 = Ok n) ->
  (settings !! SPIDERMON_JOBS_COMPARISON_THRESHOLD <> None ->
   exists x, getfloat settings SPIDERMON_JOBS_COMPARISON_THRESHOLD (S754_zero false)
             = Ok x) ->
  (jobs_comparison_not_configured settings <->
   exists msg, ZyteJobsComparisonMonitor.run client tags fuel self (Ok ())
               = Raise (NotConfigured msg)) /\
  (jobs_comparison_not_configured settings ->
   exists msg, forall R (super_run : result R),
       ZyteJobsComparisonMonitor.run client tags fuel self super_run
       = Raise (NotConfigured msg)) /\
  (~ jobs_comparison_not_configured settings ->
   forall R (super_run : result R),
     ZyteJobsComparisonMonitor.run client tags fuel self super_run = super_run).
Proof.
  intros settings Hint Hfloat. subst settings.
  set (settings := crawler_settings self) in *.
  assert (Hrun :
    (jobs_comparison_not_configured settings /\
     exists msg, forall R (super_run : result R),
       ZyteJobsComparisonMonitor.run client tags fuel self super_run
       = Raise (NotConfigured msg)) \/
    (~ jobs_comparison_not_configured settings /\
     forall R (super_run : result R),
       ZyteJobsComparisonMonitor.run client tags fuel self super_run = super_run)).
  { unfold ZyteJobsComparisonMonitor.run, jobs_comparison_not_configured.
    fold settings. clearbody settings.
    destruct (settings !! SPIDERMON_JOBS_COMPARISON) as [v|] eqn:Ejobs.
    2: { left. split; [tauto|]. eexists. intros. reflexivity. }
    destruct Hint as [n Hn]; [discriminate|].
    rewrite Hn, (bool_decide_eq_false_2 (Some v = None)) by discriminate.
    cbn [mbind result_bind bind].
    destruct (n <=? 0) eqn:En.
    { left. apply Z.leb_le in En. split; [eauto|].
      eexists. intros. reflexivity. }
    apply Z.leb_gt in En.
    destruct (settings !! SPIDERMON_JOBS_COMPARISON_THRESHOLD) as [w|] eqn:Ethr.
    2: { left. split; [tauto|]. eexists. intros. reflexivity. }
    destruct Hfloat as [x Hx]; [discriminate|].
    rewrite Hx, (bool_decide_eq_false_2 (Some w = None)) by discriminate.
    cbn [mbind result_bind bind]. rewrite float_le_zero.
    destruct (SFleb x (S754_zero false)) eqn:Ex.
    { left. split; [eauto 6|]. eexists. intros. reflexivity. }
    right. split.
    - intros [[?|(n' & Hn' & ?)]|[?|(x' & Hx' & ?)]]; try discriminate.
      + assert (n' = n) by congruence. lia.
      + assert (x' = x) by congruence. congruence.
    - intros. apply jobs_comparison_super_run. }
  destruct Hrun as [[Hcond [msg Hraise]]|[Hcond Hsuper]].
  - repeat split; eauto. tauto.
  - repeat split; try tauto.
    intros [msg Hmsg]. rewrite Hsuper in Hmsg. discriminate.
Qed.

Lemma jobs_comparison_run_not_configured_witness :
  @ZyteJobsComparisonMonitor.run no_strings no_jobs None 0 unit
    jobs_comparison_example (Ok ()) = Ok ().
Proof.
  refine (proj2 (proj2 (@jobs_comparison_run_not_configured no_strings no_jobs
                          None 0 jobs_comparison_example _ _)) _ unit (Ok ())).
  - intros _. exists 5. reflexivity.
  - intros _. eexists. reflexivity.
  - unfold jobs_comparison_not_configured.
    intros [[E|(n & E & Hn)]|[E|(x & E & Hx)]];
      vm_compute in E; try discriminate.
    + injection E as <-. lia.
    + injection E as <-. discriminate.
Defined.

Section Pagination.
Variable client : ZyteClient.
Variables tags states : list string.
Variable number_of_jobs : Z.

Local Abbreviation page := (Stated.page client tags states number_of_jobs).
Local Abbreviation loop fuel :=
  (ZyteJobsComparisonMonitor._get_jobs_loop client fuel tags states number_of_jobs).

Lemma list_jobs_page (i : nat) (start : Z) :
  start = 1000 * Z.of_nat i ->
  ZyteJobsComparisonMonitor.list_jobs client tags states number_of_jobs start
  = page i.
Proof. intros ->. reflexivity. Qed.

(** The loop returns exactly when an empty page comes within the
    iterations granted, and then what it has accumulated. *)
Lemma loop_returns (fuel i : nat) (jobs result : list job) :
  loop fuel jobs (1000 * Z.of_nat i) (page i) = Done (Ok result) <->
  exists k, (k <= fuel)%nat /\ page (i + k) = [] /\
            (forall j, (j < k)%nat -> page (i + j) <> []) /\
            result = jobs ++ concat (map page (seq i k)).
Proof.
  revert i jobs. induction fuel as [|fuel IH]; intros i jobs; cbn.
  - destruct (page i) eqn:Ei.
    + split.
      * intros [= <-]. exists 0%nat. rewrite Nat.add_0_r. cbn.
        rewrite app_nil_r. repeat split; trivial. lia.
      * intros (k & Hk & _ & _ & ->). assert (k = 0%nat) as -> by lia.
        cbn. now rewrite app_nil_r.
    + split; [discriminate|].
      intros (k & Hk & Hempty & _). assert (k = 0%nat) as -> by lia.
      rewrite Nat.add_0_r in Hempty. congruence.
  - destruct (page i) eqn:Ei.
    + split.
      * intros [= <-]. exists 0%nat. rewrite Nat.add_0_r. cbn.
        rewrite app_nil_r. repeat split; trivial; lia.
      * intros (k & _ & _ & Hbefore & ->).
        destruct k as [|k].
        -- cbn. now rewrite app_nil_r.
        -- exfalso. apply (Hbefore 0%nat); [lia|].
           now rewrite Nat.add_0_r.
    + rewrite (list_jobs_page (S i)) by lia.
      replace (1000 * Z.of_nat i + 1000) with (1000 * Z.of_nat (S i)) by lia.
      rewrite IH. split.
      * intros (k & Hk & Hempty & Hbefore & ->).
        exists (S k). repeat split.
        -- lia.
        -- now rewrite <- Nat.add_succ_comm.
        -- intros [|j] Hj.
           ++ rewrite Nat.add_0_r, Ei. discriminate.
           ++ rewrite <- Nat.add_succ_comm. apply Hbefore. lia.
        -- cbn. now rewrite Ei, <- app_assoc.
      * intros (k & Hk & Hempty & Hbefore & ->).
        destruct k as [|k].
        { rewrite Nat.add_0_r in Hempty. congruence. }
        exists k. repeat split.
        -- lia.
        -- now rewrite Nat.add_succ_comm.
        -- intros j Hj. rewrite Nat.add_succ_comm. apply Hbefore. lia.
        -- cbn. now rewrite Ei, <- app_assoc.
Qed.

(** It is still running when every page queried so far had jobs. *)
Lemma loop_diverges (fuel i : nat) (jobs : list job) :
  loop fuel jobs (1000 * Z.of_nat i) (page i) = Diverge <->
  forall j, (j <= fuel)%nat -> page (i + j) <> [].
Proof.
  revert i jobs. induction fuel as [|fuel IH]; intros i jobs; cbn.
  - destruct (page i) eqn:Ei.
    + split; [discriminate|]. intros Hall. exfalso.
      apply (Hall 0%nat); [lia|]. now rewrite Nat.add_0_r.
    + split; [|reflexivity]. intros _ j Hj.
      assert (j = 0%nat) as -> by lia. rewrite Nat.add_0_r, Ei. discriminate.
  - destruct (page i) eqn:Ei.
    + split; [discriminate|]. intros Hall. exfalso.
      apply (Hall 0%nat); [lia|]. now rewrite Nat.add_0_r.
    + rewrite (list_jobs_page (S i)) by lia.
      replace (1000 * Z.of_nat i + 1000) with (1000 * Z.of_nat (S i)) by lia.
      rewrite IH. split.
      * intros Hall [|j] Hj.
        -- rewrite Nat.add_0_r, Ei. discriminate.
        -- rewrite <- Nat.add_succ_comm. apply Hall. lia.
      * intros Hall j Hj. rewrite Nat.add_succ_comm. apply Hall. lia.
Qed.
End Pagination.

(** C5. [_get_jobs] queries the job-listing service at page offsets 0, 1000,
    2000, ..., whatever the requested number of jobs, which every query
    passes as its count; it returns the jobs of every page before the first
    empty one, and only an empty page ends the loop: with [fuel] iterations
    it returns exactly when an empty page comes among the first [fuel + 1]
    queries, and a service that never answers with an empty page keeps it
    running for ever. *)
Theorem get_jobs_pagination
        (client : ZyteClient) (current_job_tags : option (list string))
        (self : MonitorData) (states tags : list string) (number_of_jobs : Z) :
  ZyteJobsComparisonMonitor._get_tags_to_filter current_job_tags self = Ok tags ->
  let page := Stated.page client tags states number_of_jobs in
  let _get_jobs fuel :=
    ZyteJobsComparisonMonitor._get_jobs client current_job_tags fuel self
      states number_of_jobs in
  (forall fuel jobs,
      _get_jobs fuel = Done (Ok jobs) <->
      exists k, (k <= fuel)%nat /\ page k = [] /\
                (forall i, (i < k)%nat -> page i <> []) /\
                jobs = concat (map page (seq 0 k))) /\
  (forall fuel,
      _get_jobs fuel = Diverge <-> forall i, (i <= fuel)%nat -> page i <> []) /\
  ((forall i, page i <> []) -> forall fuel, _get_jobs fuel = Diverge).
Proof.
  intros Htags page _get_jobs.
  assert (Hunfold : forall fuel,
    _get_jobs fuel
    = ZyteJobsComparisonMonitor._get_jobs_loop client fuel tags states
        number_of_jobs [] (1000 * Z.of_nat 0) (page 0%nat)).
  { intros fuel. unfold _get_jobs, ZyteJobsComparisonMonitor._get_jobs.
    rewrite Htags. reflexivity. }
  assert (Hdiverge : forall fuel,
    _get_jobs fuel = Diverge <-> forall i, (i <= fuel)%nat -> page i <> []).
  { intros fuel. rewrite Hunfold. apply loop_diverges. }
  repeat split.
  - rewrite Hunfold. intros Hjobs. apply loop_returns in Hjobs. exact Hjobs.
  - rewrite Hunfold. intros Hk. apply loop_returns. exact Hk.
  - apply Hdiverge.
  - apply Hdiverge.
  - intros Hall fuel. apply Hdiverge. auto.
Qed.

Lemma get_jobs_pagination_witness :
  ZyteJobsComparisonMonitor._get_jobs three_pages None 3
     jobs_comparison_example ["finished"] 5
  = Done (Ok [ {[ "items" := 5 ]}; ∅; {[ "items" := 1005 ]}; ∅;
               {[ "items" := 2005 ]}; ∅ ]).
Proof.
  apply (get_jobs_pagination three_pages None jobs_comparison_example
           ["finished"] [] 5); [reflexivity|].
  exists 3%nat. repeat split.
  - lia.
  - intros i Hi.
    assert (Hcases : (i = 0 \/ i = 1 \/ i = 2)%nat) by lia.
    destruct Hcases as [E|[E|E]]; rewrite E; discriminate.
Defined.

Lemma sum_foldr (l : list Z) : sum l = foldr Z.add 0 l.
Proof.
  unfold sum. change (foldl Z.add 0 l = 0 + foldr Z.add 0 l).
  generalize 0 at 1 2. induction l as [|x l IH]; intros a; cbn.
  - lia.
  - rewrite IH. lia.
Qed.

Lemma sum_items (jobs : list job) :
  sum ((fun job : job => dict_get job "items" 0) <$> jobs) = total_items jobs.
Proof.
  rewrite sum_foldr. unfold total_items.
  induction jobs as [|j jobs IH]; cbn; [reflexivity|].
  now rewrite IH.
Qed.

(** [get_threshold] once the settings are read and the jobs are listed. *)
Lemma get_threshold_of_jobs `{StrConversions}
      (client : ZyteClient) (current_job_tags : option (list string))
      (fuel : nat) (self : MonitorData)
      (number_of_jobs : Z) (threshold : float) (states : list string)
      (jobs : list job) :
  getint (crawler_settings self) SPIDERMON_JOBS_COMPARISON 0 = Ok number_of_jobs ->
  getfloat (crawler_settings self) SPIDERMON_JOBS_COMPARISON_THRESHOLD
    (S754_zero false) = Ok threshold ->
  getlist (crawler_settings self) SPIDERMON_JOBS_COMPARISON_STATES ["finished"]
    = Ok states ->
  ZyteJobsComparisonMonitor._get_jobs client current_job_tags fuel self states
    number_of_jobs = Done (Ok jobs) ->
  ZyteJobsComparisonMonitor.get_threshold client current_job_tags fuel self
  = Done (expected_threshold jobs threshold).
Proof.
  intros Hint Hfloat Hstates Hjobs.
  unfold ZyteJobsComparisonMonitor.get_threshold, expected_threshold.
  rewrite Hint, Hfloat, Hstates. cbn [mbind partial_bind bind_partial].
  rewrite Hjobs. cbn [mbind partial_bind bind_partial].
  now rewrite sum_items.
Qed.

Lemma int_truediv_nonzero (a b : Z) :
  b <> 0 -> int_truediv a b <> Raise ZeroDivisionError.
Proof.
  intros Hb. unfold int_truediv.
  destruct a, b; try congruence;
    match goal with |- context [SFdiv ?p ?e ?x ?y] => destruct (SFdiv p e x y) end;
    discriminate.
Qed.

Lemma jobs_comparison_threshold_value `{StrConversions}
      (client : ZyteClient) (current_job_tags : option (list string))
      (fuel : nat) (self : MonitorData) (r : result Z) :
  ZyteJobsComparisonMonitor.get_threshold client current_job_tags fuel self = Done r ->
  BaseStatMonitor._get_threshold_value
    (ZyteJobsComparisonMonitor.cls client current_job_tags fuel) self
  = Done (VInt <$> r).
Proof.
  intros Hthreshold.
  unfold BaseStatMonitor._get_threshold_value, ZyteJobsComparisonMonitor.cls.
  cbn [Monitors.get_threshold]. rewrite Hthreshold. now destruct r.
Qed.

(** C6. When the job-listing query has returned a non-empty list of jobs,
    [get_threshold] is the average item count of the jobs, a job without an
    item count counting for 0, times [SPIDERMON_JOBS_COMPARISON_THRESHOLD],
    rounded up by [math.ceil]: the division is never by zero, and where the
    floats involved are too large or not numbers the exception is that of
    Python's arithmetic.  The check of the monitor then passes if and only if
    the job's [item_scraped_count] is greater than or equal to the threshold
    returned. *)
Theorem get_threshold_average `{StrConversions}
        (client : ZyteClient) (current_job_tags : option (list string))
        (fuel : nat) (self : MonitorData)
        (number_of_jobs : Z) (threshold : float) (states : list string)
        (jobs : list job) :
  getint (crawler_settings self) SPIDERMON_JOBS_COMPARISON 0 = Ok number_of_jobs ->
  getfloat (crawler_settings self) SPIDERMON_JOBS_COMPARISON_THRESHOLD
    (S754_zero false) = Ok threshold ->
  getlist (crawler_settings self) SPIDERMON_JOBS_COMPARISON_STATES ["finished"]
    = Ok states ->
  ZyteJobsComparisonMonitor._get_jobs client current_job_tags fuel self states
    number_of_jobs = Done (Ok jobs) ->
  jobs <> [] ->
  ZyteJobsComparisonMonitor.get_threshold client current_job_tags fuel self
  = Done (expected_threshold jobs threshold) /\
  (forall e, expected_threshold jobs threshold = Raise e ->
             e = OverflowError \/ e = ValueError) /\
  (forall expected,
      expected_threshold jobs threshold = Ok expected ->
      exists r,
        BaseStatMonitor.test_stat_monitor
          (ZyteJobsComparisonMonitor.cls client current_job_tags fuel) self
        = Done r /\
        (run_test r = Passed <->
         exists item_scraped_count,
           stats self !! "item_scraped_count" = Some item_scraped_count /\
           compare_op OpGe item_scraped_count (VInt expected) = Ok true)).
Proof.
  intros Hint Hfloat Hstates Hjobs Hnonempty.
  pose proof (get_threshold_of_jobs _ _ _ _ _ _ _ _ Hint Hfloat Hstates Hjobs)
    as Hthreshold.
  split; [exact Hthreshold|]. split.
  - unfold expected_threshold, int_truediv. intros e.
    destruct (Z.of_nat (length jobs)) as [|n|n] eqn:Elen.
    { destruct jobs; [congruence|discriminate]. }
    all: destruct (total_items jobs); cbn [mbind result_bind bind];
      try match goal with
          | |- context [SFdiv ?p ?m ?x ?y] => destruct (SFdiv p m x y)
          end;
      cbn [mbind result_bind bind];
      try match goal with
          | |- context [float_mul ?x ?y] => destruct (float_mul x y)
          end;
      cbn; intros [= <-]; auto.
  - intros expected Hexpected.
    destruct (test_stat_monitor_with_threshold
                (ZyteJobsComparisonMonitor.cls client current_job_tags fuel)
                self (VInt expected) OpGe) as (r & Hr & Hcases).
    + rewrite (jobs_comparison_threshold_value _ _ _ _ _ Hthreshold).
      now rewrite Hexpected.
    + reflexivity.
    + exists r. split; [exact Hr|].
      change (stat_name (ZyteJobsComparisonMonitor.cls client current_job_tags fuel))
        with "item_scraped_count" in Hcases.
      change (fail_if_stat_missing (ZyteJobsComparisonMonitor.cls client current_job_tags fuel))
        with true in Hcases.
      destruct (stats self !! "item_scraped_count") as [v|].
      * rewrite Hcases. split; [eauto|].
        intros (v' & [= <-] & Hge). exact Hge.
      * cbn in Hcases. rewrite Hcases. split; [discriminate|].
        intros (v' & Hv' & _). discriminate.
Qed.

Lemma get_threshold_average_witness :
  @ZyteJobsComparisonMonitor.get_threshold no_strings three_pages None 3
    jobs_comparison_example = Done (Ok 252).
Proof.
  refine (proj1 (@get_threshold_average no_strings three_pages None 3
           jobs_comparison_example 5 (S754_finite false 1 (-1)) ["finished"]
           [ {[ "items" := 5 ]}; ∅; {[ "items" := 1005 ]}; ∅;
             {[ "items" := 2005 ]}; ∅ ] _ _ _ _ _));
    try reflexivity.
  discriminate.
Defined.

(** C9. When the first page of the job listing is empty, [_get_jobs]
    returns the empty list and [get_threshold] raises ZeroDivisionError from
    the division by [len(jobs)]; the check of the monitor then ends in an
    error: it neither fails nor is skipped. *)
Theorem get_threshold_without_jobs `{StrConversions}
        (client : ZyteClient) (current_job_tags : option (list string))
        (fuel : nat) (self : MonitorData)
        (number_of_jobs : Z) (threshold : float) (states tags : list string) :
  getint (crawler_settings self) SPIDERMON_JOBS_COMPARISON 0 = Ok number_of_jobs ->
  getfloat (crawler_settings self) SPIDERMON_JOBS_COMPARISON_THRESHOLD
    (S754_zero false) = Ok threshold ->
  getlist (crawler_settings self) SPIDERMON_JOBS_COMPARISON_STATES ["finished"]
    = Ok states ->
  ZyteJobsComparisonMonitor._get_tags_to_filter current_job_tags self = Ok tags ->
  Stated.page client tags states number_of_jobs 0 = [] ->
  ZyteJobsComparisonMonitor._get_jobs client current_job_tags fuel self states
    number_of_jobs = Done (Ok []) /\
  ZyteJobsComparisonMonitor.get_threshold client current_job_tags fuel self
  = Done (Raise ZeroDivisionError) /\
  BaseStatMonitor.test_stat_monitor
    (ZyteJobsComparisonMonitor.cls client current_job_tags fuel) self
  = Done (Raise ZeroDivisionError) /\
  run_test (Raise ZeroDivisionError) = Errored ZeroDivisionError.
Proof.
  intros Hint Hfloat Hstates Htags Hpage.
  assert (Hjobs :
    ZyteJobsComparisonMonitor._get_jobs client current_job_tags fuel self states
      number_of_jobs = Done (Ok [])).
  { unfold ZyteJobsComparisonMonitor._get_jobs. rewrite Htags.
    cbn [mbind partial_bind bind_partial].
    change (ZyteJobsComparisonMonitor.list_jobs client tags states number_of_jobs 0)
      with (Stated.page client tags states number_of_jobs 0).
    rewrite Hpage. now destruct fuel. }
  pose proof (get_threshold_of_jobs _ _ _ _ _ _ _ _ Hint Hfloat Hstates Hjobs)
    as Hthreshold.
  change (expected_threshold [] threshold) with (@Raise Z ZeroDivisionError)
    in Hthreshold.
  repeat split; trivial.
  unfold BaseStatMonitor.test_stat_monitor.
  now rewrite (jobs_comparison_threshold_value _ _ _ _ _ Hthreshold).
Qed.

Lemma get_threshold_without_jobs_witness :
  @BaseStatMonitor.test_stat_monitor no_strings
    (@ZyteJobsComparisonMonitor.cls no_strings no_jobs None 0)
    jobs_comparison_example
  = Done (Raise ZeroDivisionError).
Proof.
  apply (@get_threshold_without_jobs no_strings no_jobs None 0
           jobs_comparison_example 5 (S754_finite false 1 (-1)) ["finished"] []);
    reflexivity.
Defined.

(** ** The engine *)

Module EngineFacts.
Import Engine Stated.

Section Facts.
Variable conv : Conventions.

Lemma run_rules_spec m facts todo children status log :
  run_rules conv m facts todo children status log
  = (children ++ map (rule_node conv facts) todo,
     foldl accumulate status (map (fun r => evaluate conv r facts) todo),
     log ++ map (Evaluated m) todo).
Proof.
  revert children status log.
  induction todo as [|r todo IH]; intros children status log; cbn.
  - now rewrite !app_nil_r.
  - rewrite IH, <- !app_assoc. reflexivity.
Qed.

(** The status accumulated over a list of outcomes. *)
Lemma accumulate_errored outcomes : foldl accumulate SErrored outcomes = SErrored.
Proof. induction outcomes as [|[] ? IH]; cbn; auto. Qed.

Lemma accumulate_failed outcomes :
  foldl accumulate SFailed outcomes
  = if (0 <? count_outcomes is_errored outcomes)%nat then SErrored else SFailed.
Proof.
  induction outcomes as [|[] ? IH]; cbn; auto.
  apply accumulate_errored.
Qed.

Lemma accumulate_passed outcomes :
  foldl accumulate SPassed outcomes
  = aggregate (count_outcomes is_failed outcomes) (count_outcomes is_errored outcomes).
Proof.
  unfold aggregate.
  induction outcomes as [|[] ? IH]; cbn; auto.
  - rewrite accumulate_failed. unfold count_outcomes. cbn.
    now destruct (0 <? _)%nat.
  - apply accumulate_errored.
Qed.

Lemma count_bound outcomes :
  (count_outcomes is_failed outcomes + count_outcomes is_errored outcomes <= length outcomes)%nat.
Proof.
  unfold count_outcomes.
  induction outcomes as [|o outcomes IH]; [cbn; lia|].
  rewrite !filter_cons. cbn [length].
  destruct o; cbn [is_failed is_errored];
    repeat case_decide; try discriminate; cbn [length]; lia.
Qed.

(** What [dispatch] leaves of the node, and what it logs. *)
Lemma dispatch_spec m status todo name children errs log :
  exists errs',
    dispatch m status todo (MonitorNode name status children errs) log
    = (MonitorNode name status children errs',
       log ++ map (Fired m) (filter (fun a => fires (trigger a) status = true) todo)).
Proof.
  revert errs log. induction todo as [|a todo IH]; intros errs log; cbn.
  - exists errs. now rewrite app_nil_r.
  - destruct (fires (trigger a) status) eqn:Efires.
    + rewrite decide_True by reflexivity.
      destruct (action_run a _) as [?|e]; cbn.
      * destruct (IH errs (log ++ [Fired m a])) as [errs' ->].
        exists errs'. now rewrite <- app_assoc.
      * destruct (IH (errs ++ [(action_name a, e)]) (log ++ [Fired m a]))
          as [errs' ->].
        exists errs'. now rewrite <- app_assoc.
    + rewrite decide_False by discriminate. apply IH.
Qed.

(** A run whose validation passes. *)
Lemma run_monitor_valid m facts :
  validate m facts = Ok () ->
  exists errs,
    run_monitor conv m facts
    = (MonitorNode (name m)
         (foldl accumulate SPassed (map (fun r => evaluate conv r facts) (rules m)))
         (map (rule_node conv facts) (rules m)) errs,
       (if has_setup m then [SetUp m] else [])
       ++ map (Evaluated m) (rules m)
       ++ (if has_teardown m then [TearDown m] else [])
       ++ map (Fired m)
            (filter (fun a => fires (trigger a)
                       (foldl accumulate SPassed
                          (map (fun r => evaluate conv r facts) (rules m))) = true)
                    (actions m))).
Proof.
  intros Hvalid. unfold run_monitor. rewrite Hvalid, run_rules_spec. cbn [app].
  match goal with
  | |- context [dispatch m ?st ?todo (MonitorNode ?n ?st ?c ?e) ?log] =>
      destruct (dispatch_spec m st todo n c e log) as [errs ->]
  end.
  exists errs. f_equal.
  destruct (has_setup m), (has_teardown m); cbn;
    rewrite <- ?app_assoc; reflexivity.
Qed.

(** A run whose validation fails. *)
Lemma run_monitor_invalid m facts e :
  validate m facts = Raise e ->
  exists errs,
    run_monitor conv m facts
    = (MonitorNode (name m) SSkipped [] errs,
       if skipped_runs_always_actions conv
       then map (Fired m) (filter (fun a => fires (trigger a) SSkipped = true)
                                  (actions m))
       else []).
Proof.
  intros Hinvalid. unfold run_monitor. rewrite Hinvalid.
  destruct (skipped_runs_always_actions conv).
  - destruct (dispatch_spec m SSkipped (actions m) (name m) [] [] []) as [errs ->].
    now exists errs.
  - now exists [].
Qed.

Lemma rule_outcomes_nodes facts (l : list RuleUnit) name status errs :
  rule_outcomes (MonitorNode name status (map (rule_node conv facts) l) errs)
  = map (fun r => evaluate conv r facts) l.
Proof.
  unfold rule_outcomes. cbn [node_children].
  induction l as [|r l IH]; cbn; [reflexivity|]. now rewrite IH.
Qed.
End Facts.

End EngineFacts.

Import Engine EngineFacts.

Lemma aggregate_not_skipped failed errored : aggregate failed errored <> SSkipped.
Proof. unfold aggregate. now destruct (0 <? errored)%nat, (0 <? failed)%nat. Qed.

(** C2. For a monitor with N rules of which, once evaluated, K have failed
    and M have errored (so K + M <= N), the aggregate status is Errored if
    M > 0, otherwise Failed if K > 0, otherwise Passed. *)
Theorem monitor_aggregate_status (conv : Conventions) (m : Monitor)
        (facts : FactContext) :
  validate m facts = Ok () ->
  let node := fst (run_monitor conv m facts) in
  let outcomes := rule_outcomes node in
  let failed := count_outcomes is_failed outcomes in
  let errored := count_outcomes is_errored outcomes in
  outcomes = map (fun r => evaluate conv r facts) (rules m) /\
  length outcomes = length (rules m) /\
  (failed + errored <= length (rules m))%nat /\
  node_status node = aggregate failed errored.
Proof.
  intros Hvalid.
  destruct (run_monitor_valid conv m facts Hvalid) as [errs ->].
  cbn [fst]. rewrite rule_outcomes_nodes. cbn zeta.
  repeat split.
  - now rewrite length_map.
  - rewrite <- (length_map (fun r => evaluate conv r facts)). apply count_bound.
  - cbn [node_status]. apply accumulate_passed.
Qed.

Lemma monitor_aggregate_status_witness :
  node_status (fst (run_monitor example_conventions
                      (Examples.MONITOR_F example_conventions) Examples.STATS))
  = aggregate 2 0.
Proof.
  refine (proj2 (proj2 (proj2
    (monitor_aggregate_status example_conventions
       (Examples.MONITOR_F example_conventions) Examples.STATS _)))).
  reflexivity.
Defined.

Lemma fired_in_log (m : Monitor) (a : ActionUnit) (before : list event)
      (rs : list RuleUnit) (after : list event) (fired : list ActionUnit) :
  (forall e, e ∈ before ++ after -> forall a', e <> Fired m a') ->
  Fired m a ∈ before ++ map (Evaluated m) rs ++ after ++ map (Fired m) fired
  <-> a ∈ fired.
Proof.
  intros Hother. rewrite !elem_of_app, !list_elem_of_fmap. split.
  - intros [Hin|[(r & E & _)|[Hin|(a' & E & Hin)]]].
    + exfalso. apply (Hother (Fired m a)) with a; [|reflexivity].
      apply elem_of_app. now left.
    + discriminate.
    + exfalso. apply (Hother (Fired m a)) with a; [|reflexivity].
      apply elem_of_app. now right.
    + now injection E as ->.
  - intros Hin. right. right. right. now exists a.
Qed.

(** Which actions a run fires. *)
Lemma run_monitor_fires (conv : Conventions) (m : Monitor) (facts : FactContext)
      (a : ActionUnit) :
  let run := run_monitor conv m facts in
  Fired m a ∈ snd run <->
  a ∈ actions m /\ fires (trigger a) (node_status (fst run)) = true /\
  (node_status (fst run) = SSkipped -> skipped_runs_always_actions conv = true).
Proof.
  destruct (validate m facts) as [[]|e] eqn:Hvalid.
  - destruct (run_monitor_valid conv m facts Hvalid) as [errs ->].
    cbn [fst snd node_status]. rewrite fired_in_log.
    + rewrite list_elem_of_filter, accumulate_passed. split.
      * intros [? ?]. repeat split; trivial.
        intros Hskipped. now apply aggregate_not_skipped in Hskipped.
      * tauto.
    + intros e He a' ->.
      destruct (has_setup m), (has_teardown m); cbn in He;
        repeat match goal with
               | H : _ ∈ [] |- _ => inversion H
               | H : _ ∈ _ :: _ |- _ => inversion H; subst; clear H
               end.
  - destruct (run_monitor_invalid conv m facts e Hvalid) as [errs ->].
    cbn [fst snd node_status].
    destruct (skipped_runs_always_actions conv).
    + rewrite list_elem_of_fmap. split.
      * intros (a' & [= <-] & Hin). apply list_elem_of_filter in Hin. tauto.
      * intros (Hin & Hfires & _). exists a. split; [reflexivity|].
        now apply list_elem_of_filter.
    + split.
      * intros Hin. inversion Hin.
      * intros (_ & _ & Hconv). now specialize (Hconv eq_refl).
Qed.

(** C3. In the run of a monitor, an ALWAYS action fires whatever the
    aggregate status (Passed, Failed or Errored; also in a Skipped monitor,
    where skipped monitors run their ALWAYS actions); a PASSED action fires if
    and only if the aggregate is Passed, a FAILED action if and only if it is
    Failed, an ERROR action if and only if it is Errored; a Skipped monitor
    fires none of its PASSED, FAILED and ERROR actions; and an action
    registered without a trigger has the trigger ALWAYS. *)
Theorem action_trigger_semantics (conv : Conventions) (m : Monitor)
        (facts : FactContext) (a : ActionUnit) :
  a ∈ actions m ->
  let node := fst (run_monitor conv m facts) in
  let fired := Fired m a ∈ snd (run_monitor conv m facts) in
  (trigger a = ALWAYS ->
   node_status node <> SSkipped \/ skipped_runs_always_actions conv = true ->
   fired) /\
  (trigger a = PASSED -> (fired <-> node_status node = SPassed)) /\
  (trigger a = FAILED -> (fired <-> node_status node = SFailed)) /\
  (trigger a = ERROR -> (fired <-> node_status node = SErrored)) /\
  (node_status node = SSkipped -> trigger a <> ALWAYS -> ~ fired) /\
  (forall run name, trigger (adapt_action conv run name None) = ALWAYS).
Proof.
  intros Hin node fired. subst fired.
  rewrite run_monitor_fires. fold node.
  split; [|split; [|split; [|split; [|split]]]]; [..|reflexivity].
  all: destruct (trigger a), (node_status node); cbn;
    intuition (try discriminate; try congruence).
Qed.

Lemma action_trigger_semantics_witness :
  let m := Examples.MONITOR_F example_conventions in
  let a := adapt_action example_conventions Examples.DummyAction
             (Some "Action runs on failed") (Some FAILED) in
  Fired m a ∈ snd (run_monitor example_conventions m Examples.STATS).
Proof.
  intros m a.
  destruct (action_trigger_semantics example_conventions m Examples.STATS a)
    as (_ & _ & Hfailed & _).
  - cbn. repeat constructor.
  - apply Hfailed; reflexivity.
Defined.

(** C8. MONITOR_G, whose single rule is the text expression
    [stats.a_non_existing_key == 'whatever'], run against facts without that
    key: the outcome of the rule is Errored (the cause is the missing key),
    the aggregate status of the monitor is Errored, its ERROR action fires,
    and the exception the action raises is logged into the result, which the
    run returns complete. *)
Theorem monitor_g_rule_and_action_errors (conv : Conventions)
        (facts : FactContext) :
  facts !! "a_non_existing_key" = None ->
  let m := Examples.MONITOR_G conv in
  let rule := adapt_rule conv Examples.a_non_existing_key_is_whatever None None in
  let action := adapt_action conv Examples.BombAction (Some "Action on error")
                             (Some ERROR) in
  let cause := KeyNotFound "a_non_existing_key" in
  rules m = [rule] /\ actions m = [action] /\
  evaluate conv rule facts = Errored (condition_message conv cause) cause /\
  run_monitor conv m facts
  = (MonitorNode "G. Rule and Action Errors" SErrored
       [RuleNode (rule_name rule) (Errored (condition_message conv cause) cause)]
       [("Action on error", Exception (Text "Boom!"))],
     [Evaluated m rule; Fired m action]).
Proof.
  intros Habsent m rule action cause.
  assert (Hrule : evaluate conv rule facts
                  = Errored (condition_message conv cause) cause).
  { unfold evaluate, rule. cbn. unfold fact. now rewrite Habsent. }
  repeat split; trivial.
  unfold run_monitor. cbn [validate m Examples.MONITOR_G monitor_of foldl
                           add_rule add_action new_monitor rules actions
                           has_setup has_teardown app name].
  fold rule action. cbn [run_rules]. rewrite Hrule. reflexivity.
Qed.

Lemma monitor_g_rule_and_action_errors_witness :
  node_status (fst (run_monitor example_conventions
                      (Examples.MONITOR_G example_conventions) Examples.STATS))
  = SErrored.
Proof.
  rewrite (proj2 (proj2 (proj2
    (monitor_g_rule_and_action_errors example_conventions Examples.STATS
       eq_refl)))).
  reflexivity.
Defined.

Lemma run_suite (conv : Conventions) (name : string) (children : list Suite)
      (facts : FactContext) :
  run conv (MonitorSuite name children) facts
  = (SuiteNode name
       (suite_status (map (fun c => fst (run conv c facts)) children))
       (map (fun c => fst (run conv c facts)) children),
     concat (map (fun c => snd (run conv c facts)) children)).
Proof. cbn [run]. now rewrite !map_map. Qed.

Lemma suite_status_skipped (before after : list ResultNode) (n : ResultNode) :
  node_status n = SSkipped ->
  suite_status (before ++ n :: after) = suite_status (before ++ after).
Proof.
  intros Hskipped. unfold suite_status.
  rewrite !existsb_app. cbn [existsb].
  unfold failed_or_errored at 2. now rewrite Hskipped.
Qed.

(** C1. A monitor whose configuration validation raises NotConfigured is
    marked Skipped, not Failed and not Errored: none of its rules is
    evaluated, none of its actions other than ALWAYS ones fires, and in a
    suite its siblings run as they would without it, the skipped monitor
    adding nothing to the status of the suite.  The validation of a
    [BaseStatMonitor] raises NotConfigured when the class has neither a
    [threshold_setting] nor a [get_threshold], and when its
    [threshold_setting] is not among the crawler settings; that of
    [FieldCoverageMonitor] when SPIDERMON_ADD_FIELD_COVERAGE is not true, in
    particular when it is not set. *)
Theorem not_configured_monitor_is_skipped `{StrConversions} (conv : Conventions) :
  (forall (m : Monitor) (facts : FactContext) (msg : message),
      validate m facts = Raise (NotConfigured msg) ->
      let result := run_monitor conv m facts in
      node_status (fst result) = SSkipped /\
      node_children (fst result) = [] /\
      (forall r, Evaluated m r ∉ snd result) /\
      (forall a, Fired m a ∈ snd result -> trigger a = ALWAYS) /\
      forall (name : string) (before after : list Suite),
        let suite :=
          run conv (MonitorSuite name (before ++ OfMonitor m :: after)) facts in
        node_children (fst suite)
        = map (fun c => fst (run conv c facts)) before
          ++ fst result :: map (fun c => fst (run conv c facts)) after /\
        node_status (fst suite)
        = suite_status (map (fun c => fst (run conv c facts)) (before ++ after)) /\
        snd suite
        = concat (map (fun c => snd (run conv c facts)) before)
          ++ snd result
          ++ concat (map (fun c => snd (run conv c facts)) after)) /\
  (forall (cls : StatMonitorClass) (self : MonitorData),
      threshold_setting cls = None -> get_threshold cls = None ->
      exists msg, forall R (super_run : result R),
        BaseStatMonitor.run cls self super_run = Raise (NotConfigured msg)) /\
  (forall (cls : StatMonitorClass) (self : MonitorData) (setting : string),
      threshold_setting cls = Some setting ->
      crawler_settings self !! setting = None ->
      exists msg, forall R (super_run : result R),
        BaseStatMonitor.run cls self super_run = Raise (NotConfigured msg)) /\
  (forall self : MonitorData,
      getbool (crawler_settings self) "SPIDERMON_ADD_FIELD_COVERAGE" false = Ok false ->
      exists msg, forall R (super_run : result R),
        FieldCoverageMonitor.run self super_run = Raise (NotConfigured msg)) /\
  (forall self : MonitorData,
      crawler_settings self !! "SPIDERMON_ADD_FIELD_COVERAGE" = None ->
      getbool (crawler_settings self) "SPIDERMON_ADD_FIELD_COVERAGE" false = Ok false).
Proof.
  split; [|split; [|split; [|split]]].
  - intros m facts msg Hinvalid result.
    assert (Hstatus : node_status (fst result) = SSkipped /\
                      node_children (fst result) = [] /\
                      forall e, e ∈ snd result ->
                                exists a, e = Fired m a /\ trigger a = ALWAYS).
    { subst result.
      destruct (run_monitor_invalid conv m facts _ Hinvalid) as [errs ->].
      cbn [fst snd node_status node_children]. repeat split.
      destruct (skipped_runs_always_actions conv); intros e He.
      - apply list_elem_of_fmap in He as (a & -> & Ha).
        apply list_elem_of_filter in Ha as [Hfires _].
        exists a. split; [reflexivity|]. now destruct (trigger a).
      - inversion He. }
    destruct Hstatus as (Hskipped & Hchildren & Hlog).
    repeat split; trivial.
    + intros r Hr. apply Hlog in Hr as (a & Ha & _). discriminate.
    + intros a Ha. apply Hlog in Ha as (a' & [= <-] & Htrigger). exact Htrigger.
    + rewrite run_suite. cbn [fst node_children]. now rewrite map_app.
    + rewrite run_suite. cbn [fst node_status].
      rewrite !map_app. cbn [map run]. fold result.
      now apply suite_status_skipped.
    + rewrite run_suite. cbn [snd].
      rewrite map_app, concat_app. reflexivity.
  - intros cls self Hsetting Hmethod. eexists. intros R super_run.
    unfold BaseStatMonitor.run. rewrite Hsetting, Hmethod. reflexivity.
  - intros cls self setting Hsetting Habsent. eexists. intros R super_run.
    unfold BaseStatMonitor.run. rewrite Hsetting, Habsent. reflexivity.
  - intros self Hbool. eexists. intros R super_run.
    unfold FieldCoverageMonitor.run. rewrite Hbool. reflexivity.
  - intros self Habsent. now apply getbool_absent.
Qed.

Lemma not_configured_monitor_is_skipped_witness :
  let suite :=
    run example_conventions
      (MonitorSuite "suite"
         ([OfMonitor (Examples.MONITOR_F example_conventions)]
          ++ OfMonitor unconfigured_item_count
          :: [OfMonitor (Examples.MONITOR_G example_conventions)]))
      Examples.STATS in
  node_status <$> node_children (fst suite) = [SFailed; SSkipped; SErrored] /\
  forall r, Evaluated unconfigured_item_count r
            ∉ snd (run_monitor example_conventions unconfigured_item_count
                     Examples.STATS).
Proof.
  destruct (@not_configured_monitor_is_skipped no_strings example_conventions)
    as (Hengine & _ & Hsetting & _).
  destruct (Hsetting ItemCountMonitor
              {| crawler_settings := ∅; stats := Examples.STATS |}
              "SPIDERMON_MIN_ITEMS") as [msg Hraise]; [reflexivity..|].
  destruct (Hengine unconfigured_item_count Examples.STATS msg (Hraise unit (Ok ())))
    as (_ & _ & Hrules & _ & Hsuite).
  destruct (Hsuite "suite" [OfMonitor (Examples.MONITOR_F example_conventions)]
              [OfMonitor (Examples.MONITOR_G example_conventions)])
    as (Hchildren & _ & _).
  intros suite. subst suite. split.
  - rewrite Hchildren. reflexivity.
  - exact Hrules.
Defined.

(* ===================================================================== *)
(** * Further properties of the monitors                                  *)
(* ===================================================================== *)

(** ** BaseStatMonitor and its subclasses *)

Lemma bool_decide_is_Some {A} (o : option A) :
  bool_decide (is_Some o) = match o with Some _ => true | None => false end.
Proof.
  destruct o; [apply bool_decide_eq_true_2; eauto|].
  apply bool_decide_eq_false_2. intros [? [=]].
Qed.

(** X1. [BaseStatMonitor.run] is [super().run] exactly when the class has a
    [threshold_setting] or a [get_threshold], and its [threshold_setting],
    if it has one, is among the crawler settings; in every other case it
    raises NotConfigured, whatever [super().run] would do.  So a
    [get_threshold] method does not make up for a [threshold_setting] that
    is not set. *)
Theorem stat_monitor_run_cases (cls : StatMonitorClass) (self : MonitorData) :
  let configured :=
    (is_Some (threshold_setting cls) \/ is_Some (get_threshold cls)) /\
    (forall name, threshold_setting cls = Some name ->
                  is_Some (crawler_settings self !! name)) in
  (configured ->
   forall R (super_run : result R),
     BaseStatMonitor.run cls self super_run = super_run) /\
  (~ configured ->
   exists msg, forall R (super_run : result R),
     BaseStatMonitor.run cls self super_run = Raise (NotConfigured msg)) /\
  (forall name method,
      threshold_setting cls = Some name -> get_threshold cls = Some method ->
      crawler_settings self !! name = None -> ~ configured).
Proof.
  intros configured. subst configured. unfold BaseStatMonitor.run.
  rewrite !bool_decide_is_Some.
  destruct (threshold_setting cls) as [name|] eqn:Hsetting.
  - cbn [orb negb].
    destruct (crawler_settings self !! name) as [v|] eqn:Hname.
    + rewrite bool_decide_eq_false_2 by discriminate.
      repeat split.
      * intros Hnot. exfalso. apply Hnot. split; [left; eauto|].
        intros name' [= <-]. rewrite Hname. eauto.
      * intros name' method [= <-] _ Habsent. congruence.
    + rewrite bool_decide_eq_true_2 by reflexivity.
      repeat split.
      * intros [_ Hpresent]. destruct (Hpresent name eq_refl) as [v Hv]. congruence.
      * intros _. eexists. intros. reflexivity.
      * intros name' method [= <-] _ _ [_ Hpresent].
        destruct (Hpresent name eq_refl) as [v Hv]. congruence.
  - destruct (get_threshold cls) as [method|] eqn:Hmethod; cbn [orb negb].
    + repeat split; try discriminate.
      intros Hnot. exfalso. apply Hnot. split; [right; eauto|discriminate].
    + repeat split; try discriminate.
      * intros [[[? [=]]|[? [=]]] _].
      * intros _. eexists. intros. reflexivity.
Qed.

Lemma stat_monitor_run_cases_witness :
  BaseStatMonitor.run ItemCountMonitor item_count_example (Ok ()) = Ok ().
Proof.
  refine (proj1 (stat_monitor_run_cases ItemCountMonitor item_count_example)
            _ unit (Ok ())).
  split.
  - left. eexists. reflexivity.
  - intros name [= <-]. eexists. reflexivity.
Defined.

Lemma threshold_setting_raises `{StrConversions}
      (cls : StatMonitorClass) (self : MonitorData) (name : string) (e : exn) :
  BaseStatMonitor._get_threshold_setting cls self name = Raise e ->
  crawler_settings self !! name <> None /\
  (e = ValueError \/ e = TypeError \/ e = OverflowError).
Proof.
  unfold BaseStatMonitor._get_threshold_setting, getint, getfloat, get, getitem,
    dict_get.
  destruct (threshold_datatype cls); cbv beta;
    (destruct (crawler_settings self !! name) as [v|] eqn:Hname;
     [|cbn; discriminate]);
    intros Hraise; (split; [discriminate|]);
    destruct v as [| |n|x|s|l]; cbn in Hraise;
    repeat match type of Hraise with
           | context [int_of_float ?x] => destruct x as [| | |[] ? ?]; cbn in Hraise
           | context [float_of_int ?n] =>
               unfold float_of_int in Hraise;
               destruct (binary_normalize prec emax n 0 false); cbn in Hraise
           | context [int_of_str ?s] => destruct (int_of_str s); cbn in Hraise
           | context [float_of_str ?s] => destruct (float_of_str s); cbn in Hraise
           end;
    try discriminate; injection Hraise as <-; auto.
Qed.

(** X2. When the threshold of a stat monitor is read from a setting whose
    value cannot be converted to the threshold's type, [run] lets the monitor
    through (the setting is there) and the check ends with the conversion's
    exception, a ValueError, TypeError or OverflowError: an error, also for a
    job without the stat, which is neither failed nor skipped. *)
Theorem unconvertible_threshold_errors `{StrConversions}
        (cls : StatMonitorClass) (self : MonitorData) (name : string) (e : exn) :
  get_threshold cls = None ->
  threshold_setting cls = Some name ->
  BaseStatMonitor._get_threshold_setting cls self name = Raise e ->
  (forall R (super_run : result R),
      BaseStatMonitor.run cls self super_run = super_run) /\
  BaseStatMonitor.test_stat_monitor cls self = Done (Raise e) /\
  run_test (Raise e) = Unittest.Errored e /\
  (e = ValueError \/ e = TypeError \/ e = OverflowError).
Proof.
  intros Hmethod Hsetting Hraise.
  destruct (threshold_setting_raises cls self name e Hraise) as [Hpresent Hclass].
  repeat split; trivial.
  - intros R super_run. unfold BaseStatMonitor.run.
    rewrite !bool_decide_is_Some, Hsetting, Hmethod. cbn [orb negb].
    now rewrite bool_decide_eq_false_2.
  - unfold BaseStatMonitor.test_stat_monitor, BaseStatMonitor._get_threshold_value.
    now rewrite Hmethod, Hsetting, Hraise.
  - now destruct Hclass as [->|[->| ->]].
Qed.

Lemma unconvertible_threshold_errors_witness :
  @BaseStatMonitor.test_stat_monitor no_strings ErrorCountMonitor
    {| crawler_settings := {[ "SPIDERMON_MAX_ERRORS" := VStr "many" ]};
       stats := ∅ |}
  = Done (Raise ValueError).
Proof.
  refine (proj1 (proj2
    (@unconvertible_threshold_errors no_strings ErrorCountMonitor
       {| crawler_settings := {[ "SPIDERMON_MAX_ERRORS" := VStr "many" ]};
          stats := ∅ |} "SPIDERMON_MAX_ERRORS" ValueError _ _ _)));
    reflexivity.
Defined.



(** A subclass that only sets the class attributes: what [run] and the check
    do, by the setting and the stat. *)
Lemma stat_monitor_behaviour `{StrConversions}
      (class_name monitor_name stat setting assert_type : string)
      (fail_if_missing : bool) (op : cmpop) (self : MonitorData) :
  comparison_of assert_type = Some op ->
  let cls := stat_monitor class_name monitor_name stat setting assert_type
                          fail_if_missing in
  (crawler_settings self !! setting = None ->
   exists msg, forall R (super_run : result R),
     BaseStatMonitor.run cls self super_run = Raise (NotConfigured msg)) /\
  (forall x,
      crawler_settings self !! setting <> None ->
      getfloat (crawler_settings self) setting (S754_zero false) = Ok x ->
      (forall R (super_run : result R),
          BaseStatMonitor.run cls self super_run = super_run) /\
      exists r,
        BaseStatMonitor.test_stat_monitor cls self = Done r /\
        match stats self !! stat with
        | None =>
            let message := Format "Unable to find '{}' in job stats." [VStr stat] in
            run_test r = if fail_if_missing
                         then Unittest.Failed message else Unittest.Skipped message
        | Some value =>
            run_test r = Unittest.Passed
            <-> compare_op op value (VFloat x) = Ok true
        end).
Proof.
  intros Hop cls. split.
  - intros Habsent. eexists. intros R super_run.
    unfold BaseStatMonitor.run. cbn [cls stat_monitor threshold_setting get_threshold].
    rewrite !bool_decide_is_Some, Habsent. cbn [orb negb].
    now rewrite bool_decide_eq_true_2.
  - intros x Hpresent Hfloat. split.
    + intros R super_run.
      unfold BaseStatMonitor.run. cbn [cls stat_monitor threshold_setting get_threshold].
      rewrite !bool_decide_is_Some. cbn [orb negb].
      now rewrite bool_decide_eq_false_2.
    + apply (test_stat_monitor_with_threshold cls self (VFloat x) op); [|exact Hop].
      unfold BaseStatMonitor._get_threshold_value, BaseStatMonitor._get_threshold_setting.
      cbn [cls stat_monitor threshold_setting get_threshold threshold_datatype].
      now rewrite Hfloat.
Qed.





(** ** RetryCountMonitor, TotalRequestsMonitor, SuccessfulRequestsMonitor *)

Lemma compare_int_le (n t : Z) :
  compare_op OpLe (VInt n) (VInt t) = Ok true <-> n <= t.
Proof.
  cbn. destruct (Z.compare_spec n t); split; intros; try lia; try reflexivity;
    discriminate.
Qed.

Lemma compare_int_ge (n t : Z) :
  compare_op OpGe (VInt n) (VInt t) = Ok true <-> t <= n.
Proof.
  cbn. destruct (Z.compare_spec n t); split; intros; try lia; try reflexivity;
    discriminate.
Qed.





(** ** FinishReasonMonitor *)

Lemma equal_string (v : value) (s : string) :
  equal v (VStr s) = true <-> v = VStr s.
Proof.
  destruct v as [| | | |t|]; cbn; try (split; [discriminate|discriminate]).
  rewrite String.eqb_eq. split; congruence.
Qed.

Lemma is_in_spec (v : value) (l : list string) :
  is_in v l = true <-> exists s, v = VStr s /\ s ∈ l.
Proof.
  unfold is_in. rewrite existsb_exists. split.
  - intros (s & Hin & Hequal). exists s. split.
    + now apply equal_string.
    + now apply list_elem_of_In.
  - intros (s & -> & Hin). exists s. split.
    + now apply list_elem_of_In.
    + now apply equal_string.
Qed.



(** ** UnwantedHTTPCodesMonitor *)

Section UnwantedHTTPCodes.
Context `{StrConversions}.
Variable self : MonitorData.

Local Abbreviation check_codes := (UnwantedHTTPCodesMonitor.check_codes self).

Lemma check_codes_passes (items : list (value * value)) :
  check_codes items = Ok () <-> Forall (within_limit (stats self)) items.
Proof.
  induction items as [|[code max_errors] items IH]; cbn [UnwantedHTTPCodesMonitor.check_codes].
  - split; [constructor|reflexivity].
  - rewrite Forall_cons, <- IH. unfold within_limit at 1. cbn [fst snd].
    fold (status_count (stats self)).
    destruct (int code) as [c|e]; cbn [mbind result_bind bind].
    2: { split; [discriminate|]. intros [(c & [=] & _) _]. }
    fold (status_count (stats self) c).
    destruct (compare_op OpLe (status_count (stats self) c) max_errors)
      as [[|]|e] eqn:Hle;
      cbn [mbind result_bind bind Unittest.assertTrue Unittest.fail].
    + split; [intros Hrest; split; [|exact Hrest]|tauto].
      exists c. split; [reflexivity|exact Hle].
    + split; [discriminate|]. intros [(c' & [= <-] & Hle') _]. congruence.
    + split; [discriminate|]. intros [(c' & [= <-] & Hle') _]. congruence.
Qed.

Lemma check_codes_app (before after : list (value * value)) :
  check_codes before = Ok () ->
  check_codes (before ++ after) = check_codes after.
Proof.
  induction before as [|[code max_errors] before IH];
    cbn [app UnwantedHTTPCodesMonitor.check_codes]; [reflexivity|].
  destruct (int code) as [c|e]; cbn [mbind result_bind bind]; [|discriminate].
  destruct (compare_op OpLe _ max_errors) as [[|]|e];
    cbn [mbind result_bind bind Unittest.assertTrue Unittest.fail];
    try discriminate.
  exact IH.
Qed.
End UnwantedHTTPCodes.

Lemma equal_ints (a b : Z) : equal (VInt a) (VInt b) = true <-> a = b.
Proof.
  cbn. destruct (Z.compare_spec a b); split; intros; try lia; try reflexivity;
    discriminate.
Qed.

Lemma seen_int (c : Z) (seen : list Z) :
  existsb (equal (VInt c)) (VInt <$> seen) = true <-> c ∈ seen.
Proof.
  rewrite existsb_exists. split.
  - intros (v & Hin & Hequal).
    apply list_elem_of_In, list_elem_of_fmap in Hin as (d & -> & Hd).
    apply equal_ints in Hequal as ->. exact Hd.
  - intros Hin. exists (VInt c). split.
    + apply list_elem_of_In, list_elem_of_fmap. eauto.
    + now apply equal_ints.
Qed.

(** The keys of a dict built from a list of integers: the integers of the
    list. *)
Lemma first_occurrences_ints (seen codes : list Z) (v : value) :
  v ∈ first_occurrences (VInt <$> seen) (VInt <$> codes)
  <-> exists c, v = VInt c /\ c ∈ codes /\ c ∉ seen.
Proof.
  revert seen. induction codes as [|c codes IH]; intros seen; cbn [fmap list_fmap first_occurrences].
  - split; [intros Hin; inversion Hin|].
    intros (c & _ & Hin & _). inversion Hin.
  - change (list_fmap Z value VInt) with (fmap (M:=list) VInt).
    destruct (existsb (equal (VInt c)) (VInt <$> seen)) eqn:Hseen.
    + apply seen_int in Hseen. rewrite IH. split.
      * intros (c' & -> & Hin & Hnot). exists c'. rewrite elem_of_cons. auto.
      * intros (c' & -> & Hin & Hnot). exists c'.
        apply elem_of_cons in Hin as [->|Hin]; [contradiction|auto].
    + assert (c ∉ seen) as Hnot.
      { intros Hin. apply seen_int in Hin. congruence. }
      rewrite elem_of_cons.
      change (VInt c :: (VInt <$> seen)) with (VInt <$> (c :: seen)).
      rewrite IH. split.
      * intros [->|(c' & -> & Hin & Hnot')].
        -- exists c. rewrite elem_of_cons. auto.
        -- exists c'. rewrite !elem_of_cons in *. tauto.
      * intros (c' & -> & Hin & Hnot').
        destruct (decide (c' = c)) as [->|Hne]; [now left|right].
        exists c'. rewrite !elem_of_cons in *.
        destruct Hin as [?|?]; [contradiction|]. tauto.
Qed.

Lemma dict_keys_ints (codes : list Z) :
  dict_keys (VInt <$> codes) = Ok (first_occurrences [] (VInt <$> codes)).
Proof.
  unfold dict_keys.
  replace (existsb _ (VInt <$> codes)) with false; [reflexivity|].
  induction codes as [|c codes IH]; cbn; [reflexivity|exact IH].
Qed.





(** ** FieldCoverageMonitor *)

Section FieldCoverage.
Variable getdict : gmap string value -> string -> result (list (string * value)).
Variable self : MonitorData.

Lemma collect_failures_spec (rules : list (string * value))
      (failures : list (string * value * value)) :
  (forall rule, rule ∈ rules ->
     exists below, compare_op OpLt (field_coverage (stats self) rule.1) rule.2
                   = Ok below) ->
  FieldCoverageRules.collect_failures self rules failures
  = Ok (failures
        ++ ((fun rule : string * value =>
               (rule.1, rule.2, field_coverage (stats self) rule.1))
            <$> filter (fun rule => rule_is_unmet (stats self) rule = true) rules)).
Proof.
  revert failures. induction rules as [|[field expected] rules IH];
    intros failures Hcompare; cbn [FieldCoverageRules.collect_failures].
  - now rewrite app_nil_r.
  - cbv zeta. fold (field_coverage (stats self) field).
    destruct (Hcompare (field, expected) ltac:(left)) as [below Hbelow].
    cbn [fst snd] in Hbelow.
    assert (Hunmet : rule_is_unmet (stats self) (field, expected) = below)
      by (unfold rule_is_unmet; cbn [fst snd]; now rewrite Hbelow).
    rewrite Hbelow. cbn [mbind result_bind bind].
    rewrite IH by (intros rule Hrule; apply Hcompare; now right).
    rewrite filter_cons, Hunmet. destruct below.
    + rewrite decide_True by reflexivity. cbn [fmap list_fmap].
      now rewrite <- app_assoc.
    + now rewrite decide_False by discriminate.
Qed.
End FieldCoverage.

(** X11. When every rule compares with the coverage of its field (0 for a
    field without coverage in the job stats), the field coverage check passes
    if and only if no rule expects more than the coverage of its field; when
    it fails, the message lists every unmet rule, in the order of the rules,
    each with its field, the coverage expected and the coverage found. *)
Theorem field_coverage_rules_are_met
        (getdict : gmap string value -> string -> result (list (string * value)))
        (self : MonitorData) (rules : list (string * value)) :
  getdict (crawler_settings self) "SPIDERMON_FIELD_COVERAGE_RULES" = Ok rules ->
  (forall rule, rule ∈ rules ->
     exists below, compare_op OpLt (field_coverage (stats self) rule.1) rule.2
                   = Ok below) ->
  let unmet := filter (fun rule => rule_is_unmet (stats self) rule = true) rules in
  let failures :=
    (fun rule : string * value =>
       (rule.1, rule.2, field_coverage (stats self) rule.1)) <$> unmet in
  FieldCoverageRules.test_check_if_field_coverage_rules_are_met getdict self
  = match unmet with
    | [] => Ok ()
    | _ => Raise (AssertionError (FieldCoverageRules.failures_message failures))
    end.
Proof.
  intros Hrules Hcompare unmet failures.
  unfold FieldCoverageRules.test_check_if_field_coverage_rules_are_met.
  rewrite Hrules. cbn [mbind result_bind bind].
  rewrite collect_failures_spec by exact Hcompare.
  cbn [mbind result_bind bind app]. fold unmet. fold failures.
  subst failures. now destruct unmet.
Qed.

Lemma field_coverage_rules_are_met_witness :
  FieldCoverageRules.test_check_if_field_coverage_rules_are_met coverage_rules
    coverage_example
  = Raise (AssertionError (FieldCoverageRules.failures_message
      [("dict/a", VInt 1, VInt 0); ("dict/c", VInt 1, VInt 0)])).
Proof.
  apply (field_coverage_rules_are_met coverage_rules coverage_example
           [("dict/a", VInt 1); ("dict/b", VInt 1); ("dict/c", VInt 1)] eq_refl).
  intros rule Hrule.
  repeat (apply elem_of_cons in Hrule as [->|Hrule]);
    try (eexists; reflexivity).
  inversion Hrule.
Defined.

(** ** BaseScrapyMonitor *)

(** The first part of a split: it has no separator, and the string is this
    part alone or this part, a separator and the rest. *)
Lemma split_first (sep : ascii) (s : string) :
  exists line rest,
    split sep s = line :: rest /\
    (sep ∉ list_ascii_of_string line) /\
    (s = line \/ exists tail, s = line +:+ String sep tail).
Proof.
  induction s as [|c s (line & rest & Hsplit & Hline & Hs)]; cbn [split].
  - exists EmptyString, []. repeat split; [apply not_elem_of_nil|now left].
  - destruct (Ascii.eqb_spec c sep) as [->|Hc].
    + exists EmptyString, (split sep s).
      repeat split; [apply not_elem_of_nil|]. right. now exists s.
    + rewrite Hsplit. exists (String c line), rest. repeat split.
      * cbn [list_ascii_of_string]. rewrite not_elem_of_cons. split; congruence.
      * destruct Hs as [->|[tail ->]]; [now left|right]. now exists tail.
Qed.

(** X12. [monitor_description] never indexes out of range.  It is the
    description of the parent class for a class without a docstring or with
    an empty one; otherwise it is the first line of the docstring: it has
    no line break, and the docstring is this line alone or this line, a line
    break and more.  For a docstring that opens with a line break, as that
    of [ZyteJobsComparisonMonitor] does, the description is empty. *)
Theorem monitor_description_first_line (doc : option string)
        (super_description : string) :
  exists description,
    BaseScrapyMonitor.monitor_description doc super_description
    = Some description /\
    match doc with
    | None | Some EmptyString => description = super_description
    | Some doc =>
        ("010"%char ∉ list_ascii_of_string description) /\
        (doc = description \/ exists more, doc = description +:+ newline +:+ more) /\
        (forall more, doc = newline +:+ more -> description = EmptyString)
    end.
Proof.
  destruct doc as [[|c doc]|]; cbn [BaseScrapyMonitor.monitor_description truthy];
    try (eexists; split; reflexivity).
  cbn [String.eqb negb].
  destruct (split_first "010" (String c doc)) as (line & rest & -> & Hline & Hdoc).
  exists line. repeat split; trivial.
  intros more Hmore. destruct line as [|d line]; [reflexivity|].
  exfalso. apply Hline. cbn [list_ascii_of_string].
  destruct Hdoc as [Hdoc|[tail Hdoc]]; rewrite Hdoc in Hmore;
    injection Hmore as -> _; apply list_elem_of_here.
Qed.

Lemma monitor_description_first_line_witness :
  BaseScrapyMonitor.monitor_description
    (Some (newline +:+ "    .. note::" +:+ newline +:+ "       This monitor is useful"))
    "Jobs Comparison Monitor"
  = Some EmptyString.
Proof.
  destruct (monitor_description_first_line
              (Some (newline +:+ "    .. note::" +:+ newline
                     +:+ "       This monitor is useful"))
              "Jobs Comparison Monitor")
    as (description & -> & _ & _ & Hempty).
  f_equal. eapply Hempty. reflexivity.
Defined.

(** ** ZyteJobsComparisonMonitor: the tags and the queries *)

Local Abbreviation string_lt := (fun a b : string => String.compare a b = Lt).

Lemma string_lt_trans (a b c : string) :
  string_lt a b -> string_lt b c -> string_lt a c.
Proof.
  intros Hab Hbc. apply OrderedTypeEx.String_as_OT.cmp_lt.
  apply OrderedTypeEx.String_as_OT.cmp_lt in Hab, Hbc.
  exact (OrderedTypeEx.String_as_OT.lt_trans _ _ _ Hab Hbc).
Qed.

Lemma insert_sorted_elem (s t : string) (l : list string) :
  t ∈ insert_sorted s l <-> t = s \/ t ∈ l.
Proof.
  induction l as [|u l IH]; cbn [insert_sorted].
  - rewrite list_elem_of_singleton, elem_of_nil. tauto.
  - destruct (String.compare s u) eqn:Hcompare.
    + apply String.compare_eq_iff in Hcompare as ->.
      rewrite elem_of_cons. tauto.
    + rewrite elem_of_cons. tauto.
    + rewrite !elem_of_cons, IH. tauto.
Qed.

Lemma insert_sorted_sorted (s : string) (l : list string) :
  StronglySorted string_lt l -> StronglySorted string_lt (insert_sorted s l).
Proof.
  induction 1 as [|u l Hsorted IH Hu]; cbn [insert_sorted].
  - repeat constructor.
  - destruct (String.compare s u) eqn:Hcompare.
    + now constructor.
    + constructor; [now constructor|]. constructor; [exact Hcompare|].
      eapply Forall_impl; [exact Hu|]. intros v Hv.
      exact (string_lt_trans _ _ _ Hcompare Hv).
    + constructor; [exact IH|]. apply Forall_forall. intros v Hv.
      apply insert_sorted_elem in Hv as [->|Hv].
      * rewrite String.compare_antisym, Hcompare. reflexivity.
      * rewrite Forall_forall in Hu. now apply Hu.
Qed.

(** [sorted(set(l))]: the elements of [l], in strictly increasing order. *)
Lemma sorted_set_spec (l : list string) :
  StronglySorted string_lt (sorted_set l) /\
  forall t, t ∈ sorted_set l <-> t ∈ l.
Proof.
  unfold sorted_set. induction l as [|s l [Hsorted Helem]]; cbn [foldr].
  - split; [constructor|tauto].
  - split; [now apply insert_sorted_sorted|].
    intros t. rewrite insert_sorted_elem, elem_of_cons, Helem. tauto.
Qed.

(** The tags to filter by: the desired tags that the current job has, in
    strictly increasing order. *)
Lemma tags_to_filter_spec (current_job_tags : option (list string))
      (self : MonitorData) (desired_tags : list string) :
  getlist (crawler_settings self) SPIDERMON_JOBS_COMPARISON_TAGS [] = Ok desired_tags ->
  exists tags,
    ZyteJobsComparisonMonitor._get_tags_to_filter current_job_tags self = Ok tags /\
    StronglySorted string_lt tags /\
    (forall tag, tag ∈ tags <->
       tag ∈ desired_tags /\
       exists current_tags, current_job_tags = Some current_tags /\ tag ∈ current_tags).
Proof.
  intros Hdesired. unfold ZyteJobsComparisonMonitor._get_tags_to_filter.
  rewrite Hdesired. cbn [mbind result_bind bind].
  destruct desired_tags as [|d desired_tags].
  { exists []. split; [reflexivity|]. split; [constructor|]. intros tag.
    rewrite !elem_of_nil. tauto. }
  destruct current_job_tags as [[|c current_tags]|].
  - exists []. split; [reflexivity|]. split; [constructor|]. intros tag.
    rewrite elem_of_nil. split; [tauto|].
    intros (_ & cur & [= <-] & Hin). now apply elem_of_nil in Hin.
  - eexists. split; [reflexivity|].
    destruct (sorted_set_spec
                (filter (fun t => bool_decide (t ∈ c :: current_tags))
                        (d :: desired_tags))) as [Hsorted Helem].
    split; [exact Hsorted|]. intros tag.
    rewrite Helem, list_elem_of_filter, bool_decide_spec. split.
    + intros [Hcurrent Hdesired']. eauto.
    + intros (Hdesired' & cur & [= <-] & Hcurrent). auto.
  - exists []. split; [reflexivity|]. split; [constructor|]. intros tag.
    rewrite elem_of_nil. split; [tauto|].
    intros (_ & cur & [=] & _).
Qed.

(** X13. [_get_tags_to_filter] returns, in strictly increasing order and so
    without repetition, exactly the desired tags of
    SPIDERMON_JOBS_COMPARISON_TAGS that are among the tags of the current
    job; it never raises once the setting reads as a list. *)
Theorem tags_to_filter_sorted_intersection
        (current_job_tags : option (list string))
        (self : MonitorData) (desired_tags : list string) :
  getlist (crawler_settings self) SPIDERMON_JOBS_COMPARISON_TAGS [] = Ok desired_tags ->
  exists tags,
    ZyteJobsComparisonMonitor._get_tags_to_filter current_job_tags self = Ok tags /\
    StronglySorted (fun a b => String.compare a b = Lt) tags /\
    NoDup tags /\
    (forall tag, tag ∈ tags <->
       tag ∈ desired_tags /\
       exists current_tags, current_job_tags = Some current_tags /\ tag ∈ current_tags).
Proof.
  intros Hdesired.
  destruct (tags_to_filter_spec current_job_tags self desired_tags Hdesired)
    as (tags & Htags & Hsorted & Helem).
  exists tags. split; [exact Htags|]. split; [exact Hsorted|].
  split; [|exact Helem].
  clear Htags Helem. induction Hsorted as [|t tags Hsorted IH Ht]; constructor.
  - intros Hin. rewrite Forall_forall in Ht. specialize (Ht t Hin).
    assert (String.compare t t = Eq) as Heq; [|congruence].
    now apply OrderedTypeEx.String_as_OT.cmp_eq.
  - exact IH.
Qed.

Lemma tags_to_filter_sorted_intersection_witness :
  exists tags,
    ZyteJobsComparisonMonitor._get_tags_to_filter
      (Some ["weekly"; "prod"; "eu"])
      {| crawler_settings :=
           {[ SPIDERMON_JOBS_COMPARISON_TAGS := VStr "prod,us,eu,prod" ]};
         stats := ∅ |} = Ok tags /\
    NoDup tags /\
    "eu" ∈ tags.
Proof.
  destruct (tags_to_filter_sorted_intersection
              (Some ["weekly"; "prod"; "eu"])
              {| crawler_settings :=
                   {[ SPIDERMON_JOBS_COMPARISON_TAGS := VStr "prod,us,eu,prod" ]};
                 stats := ∅ |}
              ["prod"; "us"; "eu"; "prod"])
    as (tags & Htags & _ & Hnodup & Helem); [reflexivity|].
  exists tags. split; [exact Htags|]. split; [exact Hnodup|].
  apply Helem. split.
  - do 2 (apply elem_of_cons; right). apply elem_of_cons. now left.
  - eexists. split; [reflexivity|].
    do 2 (apply elem_of_cons; right). apply elem_of_cons. now left.
Defined.

Section Requests.
Variables client client' : ZyteClient.
Variables tags states : list string.
Variable number_of_jobs : Z.

(** The two services answer alike the queries for [states] and
    [number_of_jobs] that filter by [tags], or do not filter when there is
    no tag. *)
Hypothesis same_answers : forall request,
  state request = states ->
  count request = number_of_jobs ->
  filters request = match tags with [] => None | _ => Some tags end ->
  jobs_list client request = jobs_list client' request.

Lemma list_jobs_same (start : Z) :
  ZyteJobsComparisonMonitor.list_jobs client tags states number_of_jobs start
  = ZyteJobsComparisonMonitor.list_jobs client' tags states number_of_jobs start.
Proof. now apply same_answers. Qed.

Lemma get_jobs_loop_same (fuel : nat) (jobs : list job) (start : Z)
      (_jobs : list job) :
  ZyteJobsComparisonMonitor._get_jobs_loop client fuel tags states
    number_of_jobs jobs start _jobs
  = ZyteJobsComparisonMonitor._get_jobs_loop client' fuel tags states
      number_of_jobs jobs start _jobs.
Proof.
  revert jobs start _jobs. induction fuel as [|fuel IH]; intros jobs start _jobs;
    destruct _jobs; cbn [ZyteJobsComparisonMonitor._get_jobs_loop]; trivial.
  now rewrite list_jobs_same, IH.
Qed.
End Requests.

(** X14. Every query of [_get_jobs] carries the states and the count it is
    given and one filter: [has_tag] with the tags to filter, or no filter at
    all when there is none.  So the jobs it returns depend on the service
    through these queries alone; and when no desired tag is among the tags
    of the current job, the jobs compared are those of the unfiltered
    listing, as if no tag had been desired. *)
Theorem get_jobs_queries
        (client client' : ZyteClient) (current_job_tags : option (list string))
        (fuel : nat) (self : MonitorData) (desired_tags states : list string)
        (number_of_jobs : Z) :
  getlist (crawler_settings self) SPIDERMON_JOBS_COMPARISON_TAGS [] = Ok desired_tags ->
  exists tags,
    ZyteJobsComparisonMonitor._get_tags_to_filter current_job_tags self = Ok tags /\
    ((forall tag current_tags,
         tag ∈ desired_tags -> current_job_tags = Some current_tags ->
         tag ∉ current_tags) -> tags = []) /\
    ((forall request,
         state request = states ->
         count request = number_of_jobs ->
         filters request = match tags with [] => None | _ => Some tags end ->
         jobs_list client request = jobs_list client' request) ->
     ZyteJobsComparisonMonitor._get_jobs client current_job_tags fuel self
       states number_of_jobs
     = ZyteJobsComparisonMonitor._get_jobs client' current_job_tags fuel self
         states number_of_jobs).
Proof.
  intros Hdesired.
  destruct (tags_to_filter_spec current_job_tags self desired_tags Hdesired)
    as (tags & Htags & _ & Helem).
  exists tags. split; [exact Htags|]. split.
  - intros Hnone. destruct tags as [|tag tags]; [reflexivity|]. exfalso.
    destruct (proj1 (Helem tag) ltac:(left)) as (Hin & cur & Hcur & Hcurrent).
    exact (Hnone tag cur Hin Hcur Hcurrent).
  - intros Hsame. unfold ZyteJobsComparisonMonitor._get_jobs. rewrite Htags.
    cbn [mbind partial_bind bind_partial].
    rewrite (list_jobs_same client client' tags states number_of_jobs Hsame).
    apply get_jobs_loop_same. exact Hsame.
Qed.

Lemma get_jobs_queries_witness :
  ZyteJobsComparisonMonitor._get_jobs three_pages (Some ["weekly"]) 3
    {| crawler_settings := {[ SPIDERMON_JOBS_COMPARISON_TAGS := VStr "prod" ]};
       stats := ∅ |} ["finished"] 5
  = ZyteJobsComparisonMonitor._get_jobs unfiltered_pages (Some ["weekly"]) 3
      {| crawler_settings := {[ SPIDERMON_JOBS_COMPARISON_TAGS := VStr "prod" ]};
         stats := ∅ |} ["finished"] 5.
Proof.
  destruct (get_jobs_queries three_pages unfiltered_pages (Some ["weekly"]) 3
              {| crawler_settings := {[ SPIDERMON_JOBS_COMPARISON_TAGS := VStr "prod" ]};
                 stats := ∅ |} ["prod"] ["finished"] 5)
    as (tags & Htags & Hempty & Hsame); [reflexivity|].
  apply Hsame. rewrite Hempty.
  - intros [start state count [tags'|]] _ _; [discriminate|reflexivity].
  - intros tag cur Htag [= <-] Hcur.
    apply list_elem_of_singleton in Htag as ->.
    apply list_elem_of_singleton in Hcur. discriminate.
Defined.

(** ** ZyteJobsComparisonMonitor: settings that are not numbers *)

Section Unconvertible.
Context `{StrConversions}.

Lemma getint_raises (settings : gmap string value) (name : string) (e : exn) :
  getint settings name 0 = Raise e ->
  settings !! name <> None /\
  (e = ValueError \/ e = TypeError \/ e = OverflowError).
Proof.
  unfold getint, get, getitem, dict_get.
  destruct (settings !! name) as [v|]; [|cbn; discriminate].
  intros Hraise. split; [discriminate|].
  destruct v as [| |n|x|s|l]; cbn in Hraise;
    repeat match type of Hraise with
           | context [int_of_float ?x] => destruct x as [| | |[] ? ?]; cbn in Hraise
           | context [int_of_str ?s] => destruct (int_of_str s); cbn in Hraise
           end;
    try discriminate; injection Hraise as <-; auto.
Qed.

Lemma getfloat_raises (settings : gmap string value) (name : string) (e : exn) :
  getfloat settings name (S754_zero false) = Raise e ->
  settings !! name <> None /\
  (e = ValueError \/ e = TypeError \/ e = OverflowError).
Proof.
  unfold getfloat, get, getitem, dict_get.
  destruct (settings !! name) as [v|]; [|cbn; discriminate].
  intros Hraise. split; [discriminate|].
  destruct v as [| |n|x|s|l]; cbn in Hraise;
    repeat match type of Hraise with
           | context [float_of_int ?n] =>
               unfold float_of_int in Hraise;
               destruct (binary_normalize prec emax n 0 false); cbn in Hraise
           | context [float_of_str ?s] => destruct (float_of_str s); cbn in Hraise
           end;
    try discriminate; injection Hraise as <-; auto.
Qed.

Lemma getint_positive_is_set (settings : gmap string value) (name : string) (n : Z) :
  getint settings name 0 = Ok n -> 0 < n -> settings !! name <> None.
Proof.
  intros Hint Hn Habsent. rewrite getint_absent in Hint by exact Habsent.
  injection Hint as <-. lia.
Qed.

Lemma getfloat_nan_is_set (settings : gmap string value) (name : string) :
  getfloat settings name (S754_zero false) = Ok S754_nan -> settings !! name <> None.
Proof.
  intros Hfloat Habsent. unfold getfloat in Hfloat.
  rewrite get_absent in Hfloat by exact Habsent. discriminate.
Qed.

Variable client : ZyteClient.
Variable current_job_tags : option (list string).
Variable fuel : nat.
Variable self : MonitorData.

Lemma jobs_comparison_run_threshold (number_of_jobs : Z) {R} (super_run : result R) :
  getint (crawler_settings self) SPIDERMON_JOBS_COMPARISON 0 = Ok number_of_jobs ->
  0 < number_of_jobs ->
  crawler_settings self !! SPIDERMON_JOBS_COMPARISON_THRESHOLD <> None ->
  ZyteJobsComparisonMonitor.run client current_job_tags fuel self super_run
  = (not_positive ←
       (threshold ← getfloat (crawler_settings self)
                      SPIDERMON_JOBS_COMPARISON_THRESHOLD (S754_zero false);
        Ok (SFleb threshold (S754_zero false)));
     if not_positive : bool then
       Raise (NotConfigured (Format
         "Configure SPIDERMON_JOBS_COMPARISON_THRESHOLD to your project settings to use {}."
         [VStr "Jobs Comparison Monitor"]))
     else super_run).
Proof.
  intros Hint Hpositive Hset.
  pose proof (getint_positive_is_set _ _ _ Hint Hpositive) as Hjobs.
  unfold ZyteJobsComparisonMonitor.run.
  rewrite (bool_decide_eq_false_2 _ Hjobs), (bool_decide_eq_false_2 _ Hset), Hint.
  cbn [mbind result_bind bind].
  replace (number_of_jobs <=? 0) with false by (symmetry; apply Z.leb_gt; lia).
  destruct (getfloat _ _ _) as [threshold|e]; cbn [mbind result_bind bind];
    [|reflexivity].
  rewrite float_le_zero. reflexivity.
Qed.
End Unconvertible.

(** X15. A threshold that is not a number is not at most 0, so
    [ZyteJobsComparisonMonitor.run] accepts it; the threshold of the check
    then cannot be computed: for a non-empty list of previous jobs
    [get_threshold] raises the ValueError of [math.ceil], unless the division
    before it already raised OverflowError, and the check ends in that
    error. *)
Theorem nan_threshold_is_accepted `{StrConversions}
        (client : ZyteClient) (current_job_tags : option (list string))
        (fuel : nat) (self : MonitorData)
        (number_of_jobs : Z) (states : list string) (jobs : list job) :
  getint (crawler_settings self) SPIDERMON_JOBS_COMPARISON 0 = Ok number_of_jobs ->
  0 < number_of_jobs ->
  getfloat (crawler_settings self) SPIDERMON_JOBS_COMPARISON_THRESHOLD
    (S754_zero false) = Ok S754_nan ->
  getlist (crawler_settings self) SPIDERMON_JOBS_COMPARISON_STATES ["finished"]
    = Ok states ->
  ZyteJobsComparisonMonitor._get_jobs client current_job_tags fuel self states
    number_of_jobs = Done (Ok jobs) ->
  jobs <> [] ->
  (forall R (super_run : result R),
      ZyteJobsComparisonMonitor.run client current_job_tags fuel self super_run
      = super_run) /\
  exists e,
    ZyteJobsComparisonMonitor.get_threshold client current_job_tags fuel self
    = Done (Raise e) /\
    BaseStatMonitor.test_stat_monitor
      (ZyteJobsComparisonMonitor.cls client current_job_tags fuel) self
    = Done (Raise e) /\
    run_test (Raise e) = Unittest.Errored e /\
    match int_truediv (total_items jobs) (Z.of_nat (length jobs)) with
    | Ok _ => e = ValueError
    | Raise _ => e = OverflowError
    end.
Proof.
  intros Hint Hpositive Hfloat Hstates Hjobs Hnonempty. split.
  - intros R super_run.
    rewrite (jobs_comparison_run_threshold _ _ _ _ number_of_jobs)
      by eauto using getfloat_nan_is_set.
    now rewrite Hfloat.
  - pose proof (get_threshold_of_jobs _ _ _ _ _ _ _ _ Hint Hfloat Hstates Hjobs)
      as Hthreshold.
    assert (Hexpected : exists e,
      expected_threshold jobs S754_nan = Raise e /\
      match int_truediv (total_items jobs) (Z.of_nat (length jobs)) with
      | Ok _ => e = ValueError
      | Raise _ => e = OverflowError
      end).
    { unfold expected_threshold.
      pose proof (int_truediv_nonzero (total_items jobs) (Z.of_nat (length jobs)))
        as Hnonzero.
      destruct (int_truediv _ _) as [average|e] eqn:Hdiv;
        cbn [mbind result_bind bind].
      - exists ValueError. split; [|reflexivity].
        unfold float_mul. now destruct average.
      - exists e. split; [reflexivity|].
        unfold int_truediv in Hdiv.
        destruct (total_items jobs), (Z.of_nat (length jobs)) eqn:Hlength;
          try discriminate;
          try (destruct jobs; [congruence|discriminate]);
          match type of Hdiv with
          | context [SFdiv ?p ?m ?x ?y] => destruct (SFdiv p m x y)
          end; congruence. }
    destruct Hexpected as (e & Hexpected & He). exists e.
    rewrite Hexpected in Hthreshold. split; [exact Hthreshold|].
    split; [|split; [|exact He]].
    + unfold BaseStatMonitor.test_stat_monitor.
      now rewrite (jobs_comparison_threshold_value _ _ _ _ _ Hthreshold).
    + destruct (int_truediv _ _); subst e; reflexivity.
Qed.

Lemma nan_threshold_is_accepted_witness :
  @ZyteJobsComparisonMonitor.run no_strings three_pages None 3 unit
    nan_threshold_example (Ok ()) = Ok () /\
  @BaseStatMonitor.test_stat_monitor no_strings
    (@ZyteJobsComparisonMonitor.cls no_strings three_pages None 3)
    nan_threshold_example
  = Done (Raise ValueError).
Proof.
  destruct (@nan_threshold_is_accepted no_strings three_pages None 3
              nan_threshold_example 5 ["finished"]
              [ {[ "items" := 5 ]}; ∅; {[ "items" := 1005 ]}; ∅;
                {[ "items" := 2005 ]}; ∅ ])
    as (Hrun & e & _ & Htest & _ & He);
    [reflexivity|lia|reflexivity|reflexivity|reflexivity|discriminate|].
  split; [apply Hrun|].
  vm_compute in He. now rewrite He in Htest.
Defined.

(** X16. A jobs-comparison setting that is set to something that does not
    convert to a number makes [ZyteJobsComparisonMonitor.run] itself raise
    the conversion's exception, a ValueError, TypeError or OverflowError:
    the monitor is not taken for not configured, and the run of the monitor
    proper is not reached. *)
Theorem jobs_comparison_unconvertible_setting `{StrConversions}
        (client : ZyteClient) (current_job_tags : option (list string))
        (fuel : nat) (self : MonitorData) (e : exn) :
  getint (crawler_settings self) SPIDERMON_JOBS_COMPARISON 0 = Raise e \/
  (exists number_of_jobs,
      getint (crawler_settings self) SPIDERMON_JOBS_COMPARISON 0 = Ok number_of_jobs /\
      0 < number_of_jobs /\
      getfloat (crawler_settings self) SPIDERMON_JOBS_COMPARISON_THRESHOLD
        (S754_zero false) = Raise e) ->
  (e = ValueError \/ e = TypeError \/ e = OverflowError) /\
  forall R (super_run : result R),
    ZyteJobsComparisonMonitor.run client current_job_tags fuel self super_run
    = Raise e.
Proof.
  intros [Hint|(number_of_jobs & Hint & Hpositive & Hfloat)].
  - destruct (getint_raises _ _ _ Hint) as [Hset He]. split; [exact He|].
    intros R super_run. unfold ZyteJobsComparisonMonitor.run.
    now rewrite (bool_decide_eq_false_2 _ Hset), Hint.
  - destruct (getfloat_raises _ _ _ Hfloat) as [Hset He]. split; [exact He|].
    intros R super_run.
    rewrite (jobs_comparison_run_threshold _ _ _ _ number_of_jobs) by trivial.
    now rewrite Hfloat.
Qed.

Lemma jobs_comparison_unconvertible_setting_witness :
  @ZyteJobsComparisonMonitor.run no_strings no_jobs None 0 unit
    {| crawler_settings := {[ SPIDERMON_JOBS_COMPARISON := VStr "five" ]};
       stats := ∅ |} (Ok ())
  = Raise ValueError.
Proof.
  apply (@jobs_comparison_unconvertible_setting no_strings no_jobs None 0
           {| crawler_settings := {[ SPIDERMON_JOBS_COMPARISON := VStr "five" ]};
              stats := ∅ |} ValueError).
  left. reflexivity.
Defined.

(** X17. When the previous jobs have scraped no item at all, the threshold
    is 0 for every finite value of SPIDERMON_JOBS_COMPARISON_THRESHOLD, so
    the check passes for every job that has an [item_scraped_count] of at
    least 0 and fails for a job without one; with an infinite value the
    threshold cannot be computed and [math.ceil] raises ValueError. *)
Theorem no_items_in_previous_jobs `{StrConversions}
        (client : ZyteClient) (current_job_tags : option (list string))
        (fuel : nat) (self : MonitorData)
        (number_of_jobs : Z) (threshold : float) (states : list string)
        (jobs : list job) :
  getint (crawler_settings self) SPIDERMON_JOBS_COMPARISON 0 = Ok number_of_jobs ->
  getfloat (crawler_settings self) SPIDERMON_JOBS_COMPARISON_THRESHOLD
    (S754_zero false) = Ok threshold ->
  getlist (crawler_settings self) SPIDERMON_JOBS_COMPARISON_STATES ["finished"]
    = Ok states ->
  ZyteJobsComparisonMonitor._get_jobs client current_job_tags fuel self states
    number_of_jobs = Done (Ok jobs) ->
  jobs <> [] ->
  total_items jobs = 0 ->
  ZyteJobsComparisonMonitor.get_threshold client current_job_tags fuel self
  = Done match threshold with
         | S754_zero _ | S754_finite _ _ _ => Ok 0
         | S754_infinity _ | S754_nan => Raise ValueError
         end.
Proof.
  intros Hint Hfloat Hstates Hjobs Hnonempty Htotal.
  rewrite (get_threshold_of_jobs _ _ _ _ _ _ _ _ Hint Hfloat Hstates Hjobs).
  unfold expected_threshold, int_truediv. rewrite Htotal.
  destruct (Z.of_nat (length jobs)) eqn:Hlength;
    [destruct jobs; [congruence|discriminate]|..];
    cbn [mbind result_bind bind]; now destruct threshold.
Qed.

Lemma no_items_in_previous_jobs_witness :
  @ZyteJobsComparisonMonitor.get_threshold no_strings one_empty_job None 1
    jobs_comparison_example = Done (Ok 0).
Proof.
  apply (@no_items_in_previous_jobs no_strings one_empty_job None 1
           jobs_comparison_example 5 (S754_finite false 1 (-1)) ["finished"] [∅]);
    try reflexivity.
  discriminate.
Defined.

(** ** The example monitors A and F *)

Section ExampleMonitors.
Variable conv : Conventions.
Variable facts : FactContext.

Lemma monitor_a_run :
  exists errs,
    run_monitor conv (Examples.MONITOR_A conv) facts
    = (MonitorNode "A. Monitor from parameters"
         (foldl accumulate SPassed
            (map (fun r => evaluate conv r facts) (rules (Examples.MONITOR_A conv))))
         (map (rule_node conv facts) (rules (Examples.MONITOR_A conv))) errs,
       map (Evaluated (Examples.MONITOR_A conv)) (rules (Examples.MONITOR_A conv))
       ++ map (Fired (Examples.MONITOR_A conv)) (actions (Examples.MONITOR_A conv))).
Proof.
  destruct (run_monitor_valid conv (Examples.MONITOR_A conv) facts eq_refl)
    as [errs ->].
  exists errs. reflexivity.
Qed.

Lemma monitor_f_run :
  exists errs,
    run_monitor conv (Examples.MONITOR_F conv) facts
    = (MonitorNode "F. Rule levels and action triggers"
         (foldl accumulate SPassed
            (map (fun r => evaluate conv r facts) (rules (Examples.MONITOR_F conv))))
         (map (rule_node conv facts) (rules (Examples.MONITOR_F conv))) errs,
       map (Evaluated (Examples.MONITOR_F conv)) (rules (Examples.MONITOR_F conv))
       ++ map (Fired (Examples.MONITOR_F conv))
            (filter (fun a => fires (trigger a)
                       (foldl accumulate SPassed
                          (map (fun r => evaluate conv r facts)
                               (rules (Examples.MONITOR_F conv)))) = true)
                    (actions (Examples.MONITOR_F conv)))).
Proof.
  destruct (run_monitor_valid conv (Examples.MONITOR_F conv) facts eq_refl)
    as [errs ->].
  exists errs. reflexivity.
Qed.

Lemma monitor_f_status :
  foldl accumulate SPassed
    (map (fun r => evaluate conv r facts) (rules (Examples.MONITOR_F conv)))
  = match facts !! "finish_reason" with
    | Some _ => SFailed
    | None => SErrored
    end.
Proof.
  cbn. unfold evaluate. cbn.
  pose proof (eq_refl : fact facts "finish_reason"
                        = match facts !! "finish_reason" with
                          | Some v => Ok v
                          | None => Raise (KeyNotFound "finish_reason")
                          end) as Hfact.
  destruct (facts !! "finish_reason") as [reason|]; rewrite Hfact; cbn;
    [|reflexivity].
  now destruct (equal reason (VStr "finished")).
Qed.
End ExampleMonitors.



(** X19. With the engine as the specification describes it, the example
    monitor F never passes: its rules [Rule High] and [Rule Normal] ask for a
    [finish_reason] that is [finished] and one that is not.  It is Failed
    for stats with a [finish_reason] and Errored for stats without one, so
    neither of its two actions on PASSED ever fires and its two ALWAYS
    actions always do. *)
Theorem monitor_f_never_passes (conv : Conventions) (facts : FactContext) :
  let result := run_monitor conv (Examples.MONITOR_F conv) facts in
  node_status (fst result)
  = match facts !! "finish_reason" with
    | Some _ => SFailed
    | None => SErrored
    end /\
  forall action,
    action ∈ actions (Examples.MONITOR_F conv) ->
    (trigger action = PASSED -> Fired (Examples.MONITOR_F conv) action ∉ snd result) /\
    (trigger action = ALWAYS -> Fired (Examples.MONITOR_F conv) action ∈ snd result).
Proof.
  intros result. subst result.
  destruct (monitor_f_run conv facts) as [errs ->]. cbn [fst snd node_status].
  rewrite monitor_f_status. split; [reflexivity|].
  intros action Haction. split; intros Htrigger.
  - intros Hfired. apply elem_of_app in Hfired as [Hfired|Hfired].
    + apply list_elem_of_fmap in Hfired as (r & [=] & _).
    + apply list_elem_of_fmap in Hfired as (a & [= <-] & Ha).
      apply list_elem_of_filter in Ha as [Hfires _].
      rewrite Htrigger in Hfires.
      destruct (facts !! "finish_reason"); discriminate.
  - apply elem_of_app. right.
    apply (list_elem_of_fmap_2 (Fired (Examples.MONITOR_F conv))).
    apply list_elem_of_filter. split; [|exact Haction].
    now rewrite Htrigger.
Qed.

Lemma monitor_f_never_passes_witness :
  node_status (fst (run_monitor example_conventions
                      (Examples.MONITOR_F example_conventions) ∅))
  = SErrored.
Proof.
  exact (proj1 (monitor_f_never_passes example_conventions ∅)).
Defined.
